(** * Cat vs Dog classifier page (labs/Laboratorio_6/Streamlit/app.py)

    A shallow embedding of the Streamlit script: the model loader with its
    download-and-cache logic, the image preprocessor, the predictor and the
    top-to-bottom render function [main], followed by the properties the
    specification states about them.

    Python values that the script computes are modelled as follows.
    - numbers held in float32/float64 arrays are rationals ([Q]); the
      rounding of float32 arithmetic is an explicit function [fl32] of which
      only monotonicity and exactness on small integers are used;
    - a NumPy array is a record of dtype, shape and row-major data;
    - exceptions are the [Raise] case of [result]; a computation that touches
      the disk, the network, Streamlit's caches or the page is a function
      from [World] to a new [World] and a [result];
    - PIL, Keras and the remote server are interfaces (type classes). *)

From Stdlib Require Import QArith Qminmax Qabs Lqa Ascii String.
From stdpp Require Import gmap strings list.

Local Open Scope string_scope.
Local Open Scope list_scope.

(** ** Exceptions *)

Inductive exn :=
  | IndexError
  | ValueError
  | AttributeError
  | FileNotFoundError
  | ConnectionError
  | UnidentifiedImageError
  | StreamlitAPIException
  | KeyError
  | ModelLoadError (msg : string)
  | ModelPredictError.

Inductive result (A : Type) :=
  | Ok (a : A)
  | Raise (e : exn).
Arguments Ok {A} a.
Arguments Raise {A} e.

(** ** NumPy arrays *)

Inductive dtype := uint8 | float32.

Record ndarray := mk_ndarray {
  nd_dtype : dtype;
  nd_shape : list N;
  nd_data : list Q
}.

Definition nd_size (shape : list N) : N := foldr N.mul 1%N shape.

(** Rounding to the nearest float32.  The script never inspects bits; what
    matters is that rounding is monotone and leaves small integers alone. *)
Class Float32 := {
  fl32 : Q -> Q;
  fl32_mono : forall x y, (x <= y)%Q -> (fl32 x <= fl32 y)%Q;
  fl32_int : forall z : Z, (Z.abs z <= 2 ^ 24)%Z -> (fl32 (inject_Z z) == inject_Z z)%Q
}.

Section Numpy.
Context {f32 : Float32}.

(** [a.astype(np.float32)] *)
Definition astype_float32 (a : ndarray) : ndarray :=
  {| nd_dtype := float32; nd_shape := nd_shape a; nd_data := map fl32 (nd_data a) |}.

(** [a / c] for a float32 array [a] and a Python float [c]: the result
    stays float32. *)
Definition nd_div (a : ndarray) (c : Q) : ndarray :=
  {| nd_dtype := float32; nd_shape := nd_shape a;
     nd_data := map (fun x => fl32 (x / c)) (nd_data a) |}.

(** [np.expand_dims(a, axis=0)] *)
Definition expand_dims0 (a : ndarray) : ndarray :=
  {| nd_dtype := nd_dtype a; nd_shape := 1%N :: nd_shape a; nd_data := nd_data a |}.

(** [a[0]] on the first axis. *)
Definition nd_index0 (a : ndarray) : result ndarray :=
  match nd_shape a with
  | n :: rest =>
      if (0 <? n)%N
      then Ok {| nd_dtype := nd_dtype a; nd_shape := rest;
                 nd_data := take (N.to_nat (nd_size rest)) (nd_data a) |}
      else Raise IndexError
  | [] => Raise IndexError
  end.
End Numpy.

(** [np.argmax] of a one-dimensional array: the index of the first
    occurrence of the maximum; an empty sequence raises. *)
Fixpoint argmax_from (best : Q) (besti i : nat) (l : list Q) : nat :=
  match l with
  | [] => besti
  | x :: l' =>
      if Qle_bool x best
      then argmax_from best besti (S i) l'
      else argmax_from x i (S i) l'
  end.

Definition np_argmax (l : list Q) : result nat :=
  match l with
  | [] => Raise ValueError
  | x :: l' => Ok (argmax_from x 0 1 l')
  end.

(** ** PIL images *)

Class PIL := {
  Image : Type;
  im_mode : Image -> string;
  (** (width, height) *)
  im_size : Image -> N * N;
  convert : Image -> string -> Image;
  resize : Image -> N * N -> Image;
  (** [np.array(image)] *)
  np_array : Image -> ndarray;
  (** [Image.open] on the bytes of a file. *)
  Image_decode : list Byte.byte -> result Image;
  convert_mode : forall im, im_mode (convert im "RGB") = "RGB";
  resize_mode : forall im sz, im_mode (resize im sz) = im_mode im;
  (** [resize] to a size of positive width and height (PIL raises ValueError
      for a zero side; the script only ever asks for 128 x 128). *)
  resize_size : forall im sz, (0 < fst sz)%N -> (0 < snd sz)%N ->
    im_size (resize im sz) = sz;
  (** An RGB image has three 8-bit bands; its array is height x width x 3. *)
  np_array_RGB : forall im, im_mode im = "RGB" ->
    nd_dtype (np_array im) = uint8 /\
    nd_shape (np_array im) = [snd (im_size im); fst (im_size im); 3%N] /\
    length (nd_data (np_array im)) = N.to_nat (nd_size (nd_shape (np_array im))) /\
    Forall (fun v => exists z : Z, (0 <= z <= 255)%Z /\ v = inject_Z z) (nd_data (np_array im))
}.

Section Preprocess.
Context {f32 : Float32} {pil : PIL}.

Definition default_target_size : N * N := (128%N, 128%N).

Definition preprocess_image_sized (_image : Image) (target_size : N * N) : ndarray :=
  let image := if negb (String.eqb (im_mode _image) "RGB")
               then convert _image "RGB" else _image in
  let image := resize image target_size in
  let img_array := np_array image in
  let img_array := nd_div (astype_float32 img_array) (255 # 1) in
  let img_array := expand_dims0 img_array in
  img_array.

Definition preprocess_image (_image : Image) : ndarray :=
  preprocess_image_sized _image default_target_size.
End Preprocess.

(** ** Floating-point constants and tests of the libraries *)

(** The float32 nearest to 0.8 and the one nearest to 0.6: what the Python
    literals [0.8] and [0.6] become when NumPy (from version 2) compares
    them with an [np.float32]. *)
Definition float32_0_8 : Q := 13421773 # 16777216.
Definition float32_0_6 : Q := 5033165 # 8388608.

(** The Python float [1e-9], exactly. *)
Definition isclose_tol : Q := 4835703278458517 # 4835703278458516698824704.

(** [math.isclose(a, b, rel_tol=1e-9, abs_tol=1e-9)] *)
Definition math_isclose (a b : Q) : bool :=
  let diff := Qabs (b - a) in
  Qle_bool diff (Qabs (isclose_tol * b))
  || Qle_bool diff (Qabs (isclose_tol * a))
  || Qle_bool diff isclose_tol.

(** Streamlit's range test for the value of a progress bar. *)
Definition check_float_between (value : Q) : bool :=
  (Qle_bool 0 value && Qle_bool value 1)
  || math_isclose value 0
  || math_isclose value 1.

(** ** The Keras runtime *)

Class Keras := {
  Model : Type;
  (** [tf.keras.models.load_model] on the content of a file: a model
      instance, or an exception for content that is not a saved model. *)
  keras_load_model : list Byte.byte -> result Model;
  (** [model.predict(x, verbose=0)]: one row of class scores per batch entry. *)
  model_predict : Model -> ndarray -> result (list (list Q));
  (** The lines [model.summary] hands to its [print_fn]. *)
  model_summary : Model -> list string
}.

(** ** Strings *)

(** [str.lower] on the ASCII letters; bytes of multi-byte characters are
    left as they are. *)
Definition ascii_lower (c : ascii) : ascii :=
  let n := nat_of_ascii c in
  if (65 <=? n)%nat && (n <=? 90)%nat then ascii_of_nat (n + 32) else c.

Fixpoint str_lower (s : string) : string :=
  match s with
  | EmptyString => EmptyString
  | String c s' => String (ascii_lower c) (str_lower s')
  end.

(** ** The world the script runs in *)

Record Response := mk_Response {
  status_code : Z;
  content : list Byte.byte
}.

Record UploadedFile := mk_UploadedFile {
  file_id : string;
  file_data : list Byte.byte
}.

(** What the user did to the widgets before this run of the script. *)
Record Inputs := mk_Inputs {
  checkbox : string -> bool;
  uploaded_file : option UploadedFile;
  button : string -> bool
}.

Section Script.
Context {f32 : Float32} {pil : PIL} {keras : Keras}.

Inductive pyval :=
  | PyNone
  | PyStr (s : string)
  | PyImage (im : Image)
  | PyModel (m : Model).

(** A formatted value: plain text, or a number under [:.2%]. *)
Inductive Shown :=
  | ShText (s : string)
  | ShPercent (q : Q).

(** Elements the script puts on the page, in order (containers such as the
    sidebar and the columns are flattened). *)
Inductive Element :=
  | StTitle (s : string)
  | StMarkdown (s : string)
  | StHeader (s : string)
  | StSubheader (s : string)
  | StText (s : string)
  | StInfo (s : string)
  | StSuccess (s : string)
  | StWarning (s : string)
  | StError (s : string)
  | StSpinner (s : string)
  | StCheckbox (label : string)
  | StFileUploader (label : string)
  | StButton (label : string)
  | StImageFile (path caption : string)
  | StImage (im : Image)
  | StImageArray (a : ndarray) (caption : string)
  | StMetric (label : string) (value : Shown)
  | StProgress (q : Q)
  | StBarChart (rows : list (string * Q)).

(** Calls of the two functions a classification is made of, with the
    arguments they were given. *)
Inductive Call :=
  | CallPreprocess (image : pyval)
  | CallPredict (model : pyval) (x : ndarray).

Record World := mk_World {
  (** files on the local disk *)
  disk : gmap string (list Byte.byte);
  (** what the remote server answers to a GET of a URL right now *)
  network : string -> result Response;
  (** URLs requested so far, oldest first *)
  requests_made : list string;
  (** the entry [st.cache_resource] keeps for [load_model] *)
  resource_cache : option pyval;
  (** [st.session_state] *)
  session_state : gmap string pyval;
  (** elements rendered so far, oldest first *)
  ui : list Element;
  (** calls made so far, oldest first *)
  calls : list Call
}.

Definition set_disk (d : gmap string (list Byte.byte)) (w : World) : World :=
  mk_World d (network w) (requests_made w) (resource_cache w) (session_state w) (ui w) (calls w).
Definition set_requests_made (r : list string) (w : World) : World :=
  mk_World (disk w) (network w) r (resource_cache w) (session_state w) (ui w) (calls w).
Definition set_resource_cache (c : option pyval) (w : World) : World :=
  mk_World (disk w) (network w) (requests_made w) c (session_state w) (ui w) (calls w).
Definition set_session_state (s : gmap string pyval) (w : World) : World :=
  mk_World (disk w) (network w) (requests_made w) (resource_cache w) s (ui w) (calls w).
Definition set_ui (u : list Element) (w : World) : World :=
  mk_World (disk w) (network w) (requests_made w) (resource_cache w) (session_state w) u (calls w).
Definition set_calls (c : list Call) (w : World) : World :=
  mk_World (disk w) (network w) (requests_made w) (resource_cache w) (session_state w) (ui w) c.

(** *** State and exceptions *)

Definition M (A : Type) : Type := World -> World * result A.

Definition ret {A} (a : A) : M A := fun w => (w, Ok a).
Definition raise {A} (e : exn) : M A := fun w => (w, Raise e).
Definition lift {A} (r : result A) : M A := fun w => (w, r).
Definition bind {A B} (m : M A) (k : A -> M B) : M B :=
  fun w =>
    match m w with
    | (w', Ok a) => k a w'
    | (w', Raise e) => (w', Raise e)
    end.

Notation "'let*' x ':=' m 'in' k" := (bind m (fun x => k))
  (at level 10, x pattern, m at level 100, k at level 200).
Notation "m >> k" := (bind m (fun _ => k))
  (at level 90, right associativity).

Definition when (b : bool) (m : M unit) : M unit := if b then m else ret tt.

(** *** Primitives *)

Definition st_emit (e : Element) : M unit :=
  fun w => (set_ui (ui w ++ [e]) w, Ok tt).

Definition log_call (c : Call) : M unit :=
  fun w => (set_calls (calls w ++ [c]) w, Ok tt).

(** [os.path.exists] *)
Definition os_path_exists (path : string) : M bool :=
  fun w => (w, Ok (bool_decide (is_Some (disk w !! path)))).

(** [requests.get(url)]: the request is made; a response of any status is
    returned, an unreachable server raises. *)
Definition requests_get (url : string) : M Response :=
  fun w => (set_requests_made (requests_made w ++ [url]) w, network w url).

(** [with open(path, "wb") as f: f.write(data)] *)
Definition write_file (path : string) (data : list Byte.byte) : M unit :=
  fun w => (set_disk (<[path := data]> (disk w)) w, Ok tt).

Definition read_file (path : string) : M (list Byte.byte) :=
  fun w => (w, match disk w !! path with
               | Some b => Ok b
               | None => Raise FileNotFoundError
               end).

(** [tf.keras.models.load_model(path)] *)
Definition tf_keras_models_load_model (path : string) : M pyval :=
  let* b := read_file path in
  let* m := lift (keras_load_model b) in
  ret (PyModel m).

(** [Image.open(path)] *)
Definition Image_open_path (path : string) : M Image :=
  let* b := read_file path in
  lift (Image_decode b).

(** [Image.open(uploaded_file)] *)
Definition Image_open_upload (f : UploadedFile) : M Image :=
  lift (Image_decode (file_data f)).

(** [key not in st.session_state] *)
Definition session_missing (key : string) : M bool :=
  fun w => (w, Ok (bool_decide (session_state w !! key = None))).

(** [st.session_state.key = v] *)
Definition session_set (key : string) (v : pyval) : M unit :=
  fun w => (set_session_state (<[key := v]> (session_state w)) w, Ok tt).

(** [st.session_state.get(key)] *)
Definition session_get (key : string) : M pyval :=
  fun w => (w, Ok (default PyNone (session_state w !! key))).

(** [st.session_state.key] *)
Definition session_attr (key : string) : M pyval :=
  fun w => (w, match session_state w !! key with
               | Some v => Ok v
               | None => Raise AttributeError
               end).

(** *** The model loader *)

Definition model_url : string :=
  "https://huggingface.co/nicolastibata/my_cat_dog_model/resolve/main/my_cat_dog_model.keras".
Definition model_path : string := "my_cat_dog_model.keras".

(** The function under the decorator (lines 18-30). *)
Definition load_model_body : M pyval :=
  let* present := os_path_exists model_path in
  when (negb present)
    (st_emit (StSpinner "Descargando el modelo... esto puede tomar un momento.") >>
     let* response := requests_get model_url in
     write_file model_path (content response)) >>
  tf_keras_models_load_model model_path.

(** [@st.cache_resource] on a function without arguments: the value of the
    first call that returns is kept and handed out from then on; a call
    that raises stores nothing. *)
Definition st_cache_resource (f : M pyval) : M pyval :=
  fun w =>
    match resource_cache w with
    | Some v => (w, Ok v)
    | None =>
        match f w with
        | (w', Ok v) => (set_resource_cache (Some v) w', Ok v)
        | (w', Raise e) => (w', Raise e)
        end
    end.

Definition load_model : M pyval := st_cache_resource load_model_body.

(** *** Dynamic typing *)

Definition is_none (v : pyval) : bool :=
  match v with PyNone => true | _ => false end.

(** Truth value of an object in an [if]. *)
Definition is_truthy (v : pyval) : bool :=
  match v with
  | PyNone => false
  | PyStr s => negb (String.eqb s EmptyString)
  | PyImage _ | PyModel _ => true
  end.

(** [s != v] for a string [s]. *)
Definition str_ne (s : string) (v : pyval) : bool :=
  match v with
  | PyStr t => negb (String.eqb s t)
  | _ => true
  end.

(** Attribute access on an object that is not of the expected class. *)
Definition as_image (v : pyval) : M Image :=
  match v with PyImage im => ret im | _ => raise AttributeError end.
Definition as_model (v : pyval) : M Model :=
  match v with PyModel m => ret m | _ => raise AttributeError end.

(** [l[i]] on a list or a one-dimensional array. *)
Definition list_item {A} (l : list A) (i : nat) : M A :=
  lift (match l !! i with Some a => Ok a | None => Raise IndexError end).

(** [d[k]] on a dict. *)
Definition dict_item (d : gmap string string) (k : string) : M string :=
  lift (match d !! k with Some a => Ok a | None => Raise KeyError end).

(** *** The predictor *)

(** A call of [preprocess_image(_image)]. *)
Definition call_preprocess_image (_image : pyval) : M ndarray :=
  log_call (CallPreprocess _image) >>
  let* im := as_image _image in
  ret (preprocess_image im).

(** A call of [model.predict(x, verbose=0)]. *)
Definition call_model_predict (model : pyval) (x : ndarray) : M (list (list Q)) :=
  log_call (CallPredict model x) >>
  let* m := as_model model in
  lift (model_predict m x).

Definition class_names : list string := ["Gato 🐱"; "Perro 🐶"].

Definition predict_image (model image : pyval) : M (string * Q * list Q) :=
  let* processed_image := call_preprocess_image image in
  let* prediction := call_model_predict model processed_image in
  let* prediction_0 := list_item prediction 0 in
  let* predicted_class := lift (np_argmax prediction_0) in
  let* confidence := list_item prediction_0 predicted_class in
  let* name := list_item class_names predicted_class in
  ret (name, confidence, prediction_0).

(** *** Widgets *)

Section Widgets.
Variable inp : Inputs.

Definition st_checkbox (label : string) : M bool :=
  st_emit (StCheckbox label) >> ret (checkbox inp label).

Definition st_file_uploader (label : string) : M (option UploadedFile) :=
  st_emit (StFileUploader label) >> ret (uploaded_file inp).

Definition st_button (label : string) : M bool :=
  st_emit (StButton label) >> ret (button inp label).
End Widgets.

(** [st.image(path, caption=...)]: the file has to be there. *)
Definition st_image_file (path caption : string) : M unit :=
  read_file path >> st_emit (StImageFile path caption).

(** [st.progress(value)] on a float: Streamlit accepts a value between 0.0
    and 1.0, or one that [math.isclose] finds close to either bound with
    [rel_tol=1e-9, abs_tol=1e-9], and raises for any other. *)
Definition st_progress (value : Q) : M unit :=
  if check_float_between value
  then st_emit (StProgress value)
  else raise StreamlitAPIException.

(** [pd.DataFrame] of two columns, indexed by the first: the columns must
    have the same length. *)
Definition data_frame (names : list string) (values : list Q) : M (list (string * Q)) :=
  if (length names =? length values)%nat
  then ret (zip names values)
  else raise ValueError.

Definition newline : string := String "010"%char EmptyString.

(** *** The page *)

Definition load_failed_message : string :=
  "❌ No se pudo cargar el modelo. Verifica que el archivo existe.".

(** The text of the sidebar's info box: four paragraphs. *)
Definition model_info : string :=
  String.concat (String.append newline newline)
    [ "**Modelo**: CNN para clasificación Cat vs Dog";
      "**Entrada**: Imagen 128x128 píxeles";
      "**Clases**: Gato 🐱 | Perro 🐶";
      "**Formato**: JPG, PNG, JPEG" ].

Definition sample_images : gmap string string :=
  {[ "Gato" := "cat.jpg"; "Perro" := "dog1.png"; "Otro Perro" := "dog2.png" ]}.

(** Lines 114-117, for one key. *)
Definition session_init (key : string) : M unit :=
  let* missing := session_missing key in
  when missing (session_set key PyNone).

(** Lines 126-129: the handler of the upload widget. *)
Definition upload_handler (uploaded_file : option UploadedFile) : M unit :=
  match uploaded_file with
  | Some f =>
      let* last := session_get "last_uploaded_file_id" in
      when (str_ne (file_id f) last)
        (let* im := Image_open_upload f in
         session_set "image_to_predict" (PyImage im) >>
         session_set "last_uploaded_file_id" (PyStr (file_id f)))
  | None => ret tt
  end.

(** Lines 142-149; the closure's [uploaded_file] is a parameter. *)
Definition set_sample_image (uploaded_file : option UploadedFile) (path : string) : M unit :=
  let* im := Image_open_path path in
  session_set "image_to_predict" (PyImage im) >>
  match uploaded_file with
  | Some f => session_set "last_uploaded_file_id" (PyStr (file_id f))
  | None => session_set "last_uploaded_file_id" PyNone
  end.

(** One of the three [with colN:] blocks of lines 152-165. *)
Definition sample_column (inp : Inputs) (key caption label : string) : M unit :=
  let* path := dict_item sample_images key in
  st_image_file path caption >>
  let* pressed := st_button inp label in
  when pressed
    (let* path := dict_item sample_images key in
     set_sample_image (uploaded_file inp) path).

Definition alta_confianza (predicted_class : string) : Element :=
  StSuccess (String.append
               "🎯 **Alta confianza**: El modelo está muy seguro de que es un "
               (str_lower predicted_class)).
Definition confianza_media (predicted_class : string) : Element :=
  StWarning (String.append
               "⚡ **Confianza media**: El modelo piensa que probablemente es un "
               (str_lower predicted_class)).
Definition baja_confianza : Element :=
  StError "❓ **Baja confianza**: El modelo no está muy seguro. La imagen podría ser ambigua.".

(** Lines 224-229.  [x > c] is written as the negation of [x <= c]; the
    confidence is an [np.float32], so the literals it is compared with are
    [float32_0_8] and [float32_0_6]. *)
Definition interpretation (confidence : Q) (predicted_class : string) : Element :=
  if negb (Qle_bool confidence float32_0_8) then alta_confianza predicted_class
  else if negb (Qle_bool confidence float32_0_6) then confianza_media predicted_class
  else baja_confianza.

(** Lines 188-229: what the classify button triggers. *)
Definition classify (model image_to_predict : pyval) : M unit :=
  st_emit (StSpinner "🤖 Analizando imagen...") >>
  let* result := predict_image model image_to_predict in
  let '(predicted_class, confidence, all_predictions) := result in
  st_emit (StMarkdown "---") >>
  st_emit (StSubheader "📋 Resultados") >>
  st_emit (StMetric "Predicción" (ShText predicted_class)) >>
  st_emit (StMetric "Confianza" (ShPercent confidence)) >>
  st_progress confidence >>
  st_emit (StSubheader "📊 Distribución de Probabilidades") >>
  let* df := data_frame class_names all_predictions in
  st_emit (StBarChart df) >>
  st_emit (StSubheader "🧠 Interpretación") >>
  st_emit (interpretation confidence predicted_class).

(** Lines 89-229: the page once a model is there. *)
Definition main_body (inp : Inputs) (model : pyval) : M unit :=
  st_emit (StSuccess "✅ Modelo cargado correctamente") >>
  st_emit (StHeader "📊 Información del Modelo") >>
  st_emit (StInfo model_info) >>
  let* show := st_checkbox inp "Ver arquitectura del modelo" in
  when show
    (st_emit (StText "Capas del modelo:") >>
     let* m := as_model model in
     st_emit (StText (String.concat newline (model_summary m)))) >>
  session_init "image_to_predict" >>
  session_init "last_uploaded_file_id" >>
  st_emit (StHeader "📤 Subir imagen") >>
  let* uploaded_file := st_file_uploader inp "Selecciona una imagen de un gato o perro" in
  upload_handler uploaded_file >>
  st_emit (StMarkdown "### O prueba con estas imágenes de ejemplo:") >>
  sample_column inp "Gato" "Gato de ejemplo" "Usar Gato" >>
  sample_column inp "Perro" "Perro de ejemplo" "Usar Perro" >>
  sample_column inp "Otro Perro" "Otro Perro de ejemplo" "Usar Otro Perro" >>
  let* image_to_predict := session_attr "image_to_predict" in
  when (is_truthy image_to_predict)
    (st_emit (StMarkdown "---") >>
     st_emit (StSubheader "📷 Imagen a Clasificar") >>
     let* im := as_image image_to_predict in
     st_emit (StImage im) >>
     st_emit (StSubheader "🔍 Imagen Procesada") >>
     let* processed_display := call_preprocess_image image_to_predict in
     let* first := lift (nd_index0 processed_display) in
     st_emit (StImageArray first "128x128 normalizada")) >>
  when (negb (is_none image_to_predict))
    (let* pressed := st_button inp "🚀 Clasificar Imagen" in
     when pressed (classify model image_to_predict)).

(** Lines 78-87, then the rest of [main]. *)
Definition main (inp : Inputs) : M unit :=
  st_emit (StTitle "🐾 Cat vs Dog Classifier") >>
  st_emit (StMarkdown "---") >>
  let* model := load_model in
  if is_none model
  then st_emit (StError load_failed_message)
  else main_body inp model.

(** One run of the script: the module-level [model = load_model()] of
    line 33, then [main()]. *)
Definition script (inp : Inputs) : M unit :=
  let* model := load_model in
  main inp.

(** *** Vocabulary of the properties *)

(** A value that [tf.keras.models.load_model] has returned for some file
    content. *)
Definition from_keras (v : pyval) : Prop :=
  exists (data : list Byte.byte) (m : Model),
    keras_load_model data = Ok m /\ v = PyModel m.

(** Streamlit's resource cache holds nothing but an earlier return value
    of the Keras loader. *)
Definition cache_ok (w : World) : Prop :=
  forall v, resource_cache w = Some v -> from_keras v.

(** The world once the download branch has sent its request. *)
Definition requested (w : World) : World :=
  set_requests_made (requests_made w ++ [model_url])
    (set_ui (ui w ++ [StSpinner "Descargando el modelo... esto puede tomar un momento."]) w).

(** The world after the download branch, for a server that answers. *)
Definition downloaded (resp : Response) (w : World) : World :=
  set_disk (<[model_path := content resp]> (disk w)) (requested w).

(** [I] is kept by [m]: if it holds before [m] runs it holds after, however
    [m] ends. *)
Definition inv {A} (I : World -> Prop) (m : M A) : Prop :=
  forall w, I w -> I (m w).1.

(** The two keys the page keeps in the session state. *)
Definition session_flag (key : string) : Prop :=
  key = "image_to_predict" \/ key = "last_uploaded_file_id".

(** The element of the branch taken when [load_model] returns [None]. *)
Definition load_failed : Element := StError load_failed_message.

(** The session state is [s0]. *)
Definition session_is (s0 : gmap string pyval) (w : World) : Prop :=
  session_state w = s0.

(** Two worlds that differ at most in session keys other than the two
    flags. *)
Definition same_but_other_keys (w1 w2 : World) : Prop :=
  disk w1 = disk w2 /\
  network w1 = network w2 /\
  requests_made w1 = requests_made w2 /\
  resource_cache w1 = resource_cache w2 /\
  ui w1 = ui w2 /\
  calls w1 = calls w2 /\
  forall key, session_flag key -> session_state w1 !! key = session_state w2 !! key.

(** [m] does not look at session keys other than the two flags: run in two
    such worlds it ends the same way and leaves two such worlds. *)
Definition blind {A} (m : M A) : Prop :=
  forall w1 w2, same_but_other_keys w1 w2 ->
    (m w1).2 = (m w2).2 /\ same_but_other_keys (m w1).1 (m w2).1.

(** [m] has nothing to do with Streamlit's resource cache: it leaves it as
    it is, and what it returns and renders is the same whatever the cache
    holds. *)
Definition cache_free {A} (m : M A) : Prop :=
  forall (w : World) (c : option pyval),
    resource_cache (m w).1 = resource_cache w /\
    (m (set_resource_cache c w)).2 = (m w).2 /\
    ui (m (set_resource_cache c w)).1 = ui (m w).1.

(** *** Vocabulary of the further properties *)

(** What [predict_image] returns, read off the row the model answers with. *)
Definition label_of_row (row : list Q) : result (string * Q * list Q) :=
  match np_argmax row with
  | Raise e => Raise e
  | Ok j =>
      match row !! j with
      | None => Raise IndexError
      | Some c =>
          match class_names !! j with
          | None => Raise IndexError
          | Some name => Ok (name, c, row)
          end
      end
  end.

(** The world after [n] calls of [load_model], one after the other. *)
Fixpoint after_loads (n : nat) (w : World) : World :=
  match n with
  | O => w
  | S n' => (load_model (after_loads n' w)).1
  end.

Definition is_predict_call (c : Call) : bool :=
  match c with CallPredict _ _ => true | CallPreprocess _ => false end.

(** The calls of [model.predict] made so far. *)
Definition predict_calls (w : World) : list Call :=
  List.filter is_predict_call (calls w).

(** The two flags hold what the page puts there: an image or [None], and a
    file id or [None]. *)
Definition session_typed (w : World) : Prop :=
  (forall v, session_state w !! "image_to_predict" = Some v ->
     v = PyNone \/ exists im, v = PyImage im) /\
  (forall v, session_state w !! "last_uploaded_file_id" = Some v ->
     v = PyNone \/ exists s, v = PyStr s).

(** From [I] before [m] to [J] after it, however [m] ends. *)
Definition leads {A} (I J : World -> Prop) (m : M A) : Prop :=
  forall w, I w -> J (m w).1.

(** The calls of [model.predict] made so far are [log]. *)
Definition predicts_are (log : list Call) (w : World) : Prop := predict_calls w = log.

(** At most one call of [model.predict] has been added to [log]. *)
Definition at_most_one_more (log : list Call) (w : World) : Prop :=
  predict_calls w = log \/
  exists model x, predict_calls w = log ++ [CallPredict model x].
End Script.

Notation "'let*' x ':=' m 'in' k" := (bind m (fun x => k))
  (at level 10, x pattern, m at level 100, k at level 200).
Notation "m >> k" := (bind m (fun _ => k))
  (at level 90, right associativity).

(** ** A small concrete runtime

    Exact arithmetic for float32, single-colour bitmaps for PIL and
    constant classifiers for Keras: enough to run the script on examples. *)

Module Toy.

Definition exact_fl32 (x : Q) : Q := x.

Lemma exact_fl32_mono x y : (x <= y)%Q -> (exact_fl32 x <= exact_fl32 y)%Q.
Proof. exact (fun h => h). Qed.

Lemma exact_fl32_int (z : Z) :
  (Z.abs z <= 2 ^ 24)%Z -> (exact_fl32 (inject_Z z) == inject_Z z)%Q.
Proof. intros _. reflexivity. Qed.

Definition float32_exact : Float32 :=
  {| fl32 := exact_fl32; fl32_mono := exact_fl32_mono; fl32_int := exact_fl32_int |}.

(** A bitmap painted in one grey level. *)
Record bitmap := mk_bitmap {
  bm_mode : string;
  bm_size : N * N;
  bm_level : Z
}.

Definition bands (mode : string) : N :=
  if String.eqb mode "RGB" then 3%N
  else if String.eqb mode "RGBA" then 4%N
  else 1%N.

Definition clamp8 (z : Z) : Z := Z.max 0 (Z.min 255 z).

Definition bm_convert (im : bitmap) (mode : string) : bitmap :=
  mk_bitmap mode (bm_size im) (bm_level im).

Definition bm_resize (im : bitmap) (sz : N * N) : bitmap :=
  mk_bitmap (bm_mode im) sz (bm_level im).

Definition bm_array (im : bitmap) : ndarray :=
  let shape := [snd (bm_size im); fst (bm_size im); bands (bm_mode im)] in
  {| nd_dtype := uint8; nd_shape := shape;
     nd_data := repeat (inject_Z (clamp8 (bm_level im))) (N.to_nat (nd_size shape)) |}.

(** A file of [n] bytes decodes to an [n] x 1 greyscale bitmap whose level
    is the first byte; an empty file is not an image. *)
Definition bm_decode (b : list Byte.byte) : result bitmap :=
  match b with
  | [] => Raise UnidentifiedImageError
  | x :: _ => Ok (mk_bitmap "L" (N.of_nat (length b), 1%N) (Z.of_N (Byte.to_N x)))
  end.

Lemma bm_array_RGB (im : bitmap) :
  bm_mode im = "RGB" ->
  nd_dtype (bm_array im) = uint8 /\
  nd_shape (bm_array im) = [snd (bm_size im); fst (bm_size im); 3%N] /\
  length (nd_data (bm_array im)) = N.to_nat (nd_size (nd_shape (bm_array im))) /\
  Forall (fun v => exists z : Z, (0 <= z <= 255)%Z /\ v = inject_Z z) (nd_data (bm_array im)).
Proof.
  intros Hm. unfold bm_array. cbn [nd_dtype nd_shape nd_data]. rewrite Hm.
  repeat split.
  - apply repeat_length.
  - apply List.Forall_forall. intros v Hv. apply repeat_spec in Hv.
    exists (clamp8 (bm_level im)). split; [unfold clamp8; lia | exact Hv].
Qed.

Definition pil_bitmaps : PIL :=
  {| Image := bitmap;
     im_mode := bm_mode;
     im_size := bm_size;
     convert := bm_convert;
     resize := bm_resize;
     np_array := bm_array;
     Image_decode := bm_decode;
     convert_mode := fun _ => eq_refl;
     resize_mode := fun _ _ => eq_refl;
     resize_size := fun _ _ _ _ => eq_refl;
     np_array_RGB := bm_array_RGB |}.

(** A classifier that answers every input with the same two scores. *)
Definition const_load (b : list Byte.byte) : result (Q * Q) :=
  match b with
  | [x] => let k := Z.of_N (Byte.to_N x) in
           Ok (Qmake k 255, Qmake (255 - k) 255)
  | _ => Raise (ModelLoadError "not a saved model")
  end.

Definition keras_const : Keras :=
  {| Model := Q * Q;
     keras_load_model := const_load;
     model_predict := fun m _ => Ok [[fst m; snd m]];
     model_summary := fun _ => ["dense"] |}.

Definition pyval := @pyval pil_bitmaps keras_const.
Definition World := @World pil_bitmaps keras_const.

Definition a_cat : bitmap := mk_bitmap "L" (640%N, 480%N) 90.
Definition mostly_dog : Q * Q := (51 # 255, 204 # 255).
Definition the_model : pyval := @PyModel pil_bitmaps keras_const mostly_dog.

(** The server: the model URL answers with what it is given to answer,
    every other URL is unreachable. *)
Definition server (answer : result Response) (url : string) : result Response :=
  if String.eqb url model_url then answer else Raise ConnectionError.

Definition saved_model : list Byte.byte := [Byte.x33].
Definition not_found_page : list Byte.byte := [Byte.x34; Byte.x30; Byte.x34].

Definition sample_files : gmap string (list Byte.byte) :=
  {[ "cat.jpg" := [Byte.x5a]; "dog1.png" := [Byte.x10; Byte.x10];
     "dog2.png" := [Byte.x20; Byte.x20; Byte.x20] ]}.

(** A fresh deployment: the samples are on disk, the model is not;
    nothing is cached, no session exists. *)
Definition fresh (answer : result Response) : World :=
  mk_World sample_files (server answer) [] None ∅ [] [].

(** The model file is on disk with the given content. *)
Definition with_model_file (data : list Byte.byte) (w : World) : World :=
  set_disk (<[model_path := data]> (disk w)) w.

Definition no_clicks : Inputs :=
  {| checkbox := fun _ => false; uploaded_file := None; button := fun _ => false |}.

Definition an_upload : UploadedFile := mk_UploadedFile "file-1" [Byte.x07; Byte.x07].

(** No model file and a server that cannot be reached. *)
Definition offline : World := fresh (Raise ConnectionError).
(** The model file is in place. *)
Definition installed : World := with_model_file saved_model offline.
(** The file in place is an error page saved by an earlier download. *)
Definition broken : World := with_model_file not_found_page offline.
(** No model file and a server that answers 404. *)
Definition answers_404 : World := fresh (Ok (mk_Response 404 not_found_page)).

Definition run_load_model : World -> World * result pyval :=
  @load_model pil_bitmaps keras_const.
Definition run_load_model_body : World -> World * result pyval :=
  @load_model_body pil_bitmaps keras_const.
Definition run_preprocess_image : bitmap -> ndarray :=
  @preprocess_image float32_exact pil_bitmaps.
Definition run_predict_image (model image : pyval) :
    World -> World * result (string * Q * list Q) :=
  @predict_image float32_exact pil_bitmaps keras_const model image.
Definition run_upload_handler (upload : option UploadedFile) :
    World -> World * result unit :=
  @upload_handler pil_bitmaps keras_const upload.
Definition image_value (im : bitmap) : pyval := @PyImage pil_bitmaps keras_const im.

(** A session in which [an_upload] has been taken in already. *)
Definition seen_upload : World :=
  set_session_state
    (<["last_uploaded_file_id" := @PyStr pil_bitmaps keras_const (file_id an_upload)]>
       (<["image_to_predict" := image_value a_cat]>
          (<["theme" := @PyStr pil_bitmaps keras_const "dark"]> ∅)))
    installed.
Definition run_main (inp : Inputs) : World -> World * result unit :=
  @main float32_exact pil_bitmaps keras_const inp.
Definition run_script (inp : Inputs) : World -> World * result unit :=
  @script float32_exact pil_bitmaps keras_const inp.

(** A classifier that answers every input with the rows it holds, whatever
    their number and length. *)
Definition keras_table : Keras :=
  {| Model := list (list Q);
     keras_load_model := fun _ => Raise (ModelLoadError "not a saved model");
     model_predict := fun m _ => Ok m;
     model_summary := fun _ => ["table"] |}.

Definition three_way : list (list Q) := [[1 # 10; 2 # 10; 7 # 10]].
Definition cat_first : list (list Q) := [[5 # 10; 5 # 10; 0 # 10]].
Definition one_score : list (list Q) := [[9 # 10]].

(** A world for [keras_table]: nothing on disk, nothing cached, no session. *)
Definition blank_table :=
  @mk_World pil_bitmaps keras_table ∅ (fun _ => Raise ConnectionError) [] None ∅ [] [].

Definition run_predict_table (m : list (list Q)) (im : bitmap) :=
  @predict_image float32_exact pil_bitmaps keras_table
    (@PyModel pil_bitmaps keras_table m) (@PyImage pil_bitmaps keras_table im) blank_table.

Definition run_classify (model image : pyval) : World -> World * result unit :=
  @classify float32_exact pil_bitmaps keras_const model image.

(** Scores that are float32 values. *)
Definition quarter_dog : Q * Q := (1 # 4, 3 # 4).
Definition the_quarter_model : pyval := @PyModel pil_bitmaps keras_const quarter_dog.


(** The user leaves the uploaded file in place and clicks nothing. *)
Definition same_upload_again : Inputs :=
  {| checkbox := fun _ => false; uploaded_file := Some an_upload;
     button := fun _ => false |}.


End Toy.

(** * Properties *)

(** ** The preprocessed tensor *)

Section PreprocessFacts.
Context {f32 : Float32} {pil : PIL}.

Lemma fl32_unit_interval (x : Q) : (0 <= x <= 1)%Q -> (0 <= fl32 x <= 1)%Q.
Proof.
  intros [H0 H1].
  pose proof (fl32_int 0 ltac:(cbn; lia)) as E0.
  pose proof (fl32_int 1 ltac:(cbn; lia)) as E1.
  pose proof (fl32_mono _ _ H0) as L0.
  pose proof (fl32_mono _ _ H1) as L1.
  change (inject_Z 0) with 0%Q in E0. change (inject_Z 1) with 1%Q in E1.
  rewrite E0 in L0. rewrite E1 in L1. split; assumption.
Qed.

Lemma normalize_byte (z : Z) :
  (0 <= z <= 255)%Z -> (0 <= fl32 (fl32 (inject_Z z) / (255 # 1)) <= 1)%Q.
Proof.
  intros Hz. apply fl32_unit_interval.
  rewrite (fl32_int z) by (change (2 ^ 24)%Z with 16777216%Z; lia).
  assert (0 <= inject_Z z)%Q by (unfold Qle; cbn; lia).
  assert (inject_Z z <= 255 # 1)%Q by (unfold Qle; cbn; lia).
  split.
  - apply Qle_shift_div_l; [reflexivity | lra].
  - apply Qle_shift_div_r; [reflexivity | lra].
Qed.

Lemma preprocess_rgb_mode (im : Image) (sz : N * N) :
  im_mode (resize (if negb (String.eqb (im_mode im) "RGB")
                   then convert im "RGB" else im) sz) = "RGB".
Proof.
  rewrite resize_mode.
  destruct (String.eqb (im_mode im) "RGB") eqn:E; cbn [negb].
  - now apply String.eqb_eq.
  - apply convert_mode.
Qed.

Lemma nd_size_cons_1 (shape : list N) : nd_size (1%N :: shape) = nd_size shape.
Proof. unfold nd_size. cbn [foldr]. apply N.mul_1_l. Qed.

(** For a target size of positive width and height the result is a
    float32 array of shape (1, height, width, 3) with all entries in
    [0, 1]. *)
Lemma preprocess_image_sized_spec (im : Image) (sz : N * N) :
  (0 < fst sz)%N -> (0 < snd sz)%N ->
  let a := preprocess_image_sized im sz in
  nd_dtype a = float32 /\
  nd_shape a = [1%N; snd sz; fst sz; 3%N] /\
  length (nd_data a) = N.to_nat (nd_size (nd_shape a)) /\
  Forall (fun v => (0 <= v <= 1)%Q) (nd_data a).
Proof.
  intros Hw Hh.
  cbv zeta. unfold preprocess_image_sized, expand_dims0, nd_div, astype_float32.
  cbn [nd_dtype nd_shape nd_data].
  destruct (np_array_RGB _ (preprocess_rgb_mode im sz)) as (_ & Hs & Hl & Hr).
  rewrite resize_size in Hs by assumption.
  split; [reflexivity |]. split; [now rewrite Hs |]. split.
  - rewrite nd_size_cons_1, !List.length_map. exact Hl.
  - rewrite !List.Forall_map. eapply List.Forall_impl; [| exact Hr].
    intros v (z & Hz & ->). apply normalize_byte, Hz.
Qed.

(** C2: whatever the size and the colour mode of the input image,
    [preprocess_image] with the default target size returns a float32 array
    of shape (1, 128, 128, 3), holding that many numbers, each of them
    between 0 and 1. *)
Theorem preprocess_image_tensor (im : Image) :
  nd_dtype (preprocess_image im) = float32 /\
  nd_shape (preprocess_image im) = [1%N; 128%N; 128%N; 3%N] /\
  length (nd_data (preprocess_image im)) = N.to_nat (1 * 128 * 128 * 3) /\
  Forall (fun v => (0 <= v <= 1)%Q) (nd_data (preprocess_image im)).
Proof.
  destruct (preprocess_image_sized_spec im default_target_size eq_refl eq_refl)
    as (Hd & Hs & Hl & Hr).
  fold (preprocess_image im) in Hd, Hs, Hl, Hr.
  split; [exact Hd |]. split; [exact Hs |]. split; [| exact Hr].
  rewrite Hl, Hs. reflexivity.
Qed.
End PreprocessFacts.

(** ** The predictor *)

Section PredictFacts.
Context {f32 : Float32} {pil : PIL} {keras : Keras}.

Lemma predict_image_world (model : pyval) (image : Image) (w : World) :
  (predict_image model (PyImage image) w).1 =
    set_calls (calls w ++ [CallPreprocess (PyImage image);
                           CallPredict model (preprocess_image image)]) w.
Proof.
  unfold predict_image, call_preprocess_image, call_model_predict, list_item,
    as_image, as_model, bind, log_call, lift, ret, raise, set_calls.
  cbn. rewrite <- app_assoc. cbn.
  destruct model as [| s | im | m]; cbn; try reflexivity.
  destruct (model_predict m (preprocess_image image)) as [prediction | e]; cbn;
    [| reflexivity].
  destruct (prediction !! 0%nat) as [row |]; cbn; [| reflexivity].
  destruct (np_argmax row) as [i | e]; cbn; [| reflexivity].
  destruct (row !! i); cbn; [| reflexivity].
  destruct (class_names !! i); reflexivity.
Qed.


(** C1: when the model answers with a pair of scores (p0, p1) for the
    image, [predict_image] returns the class name at the argmax index of
    the pair - 'Gato' when p1 <= p0, 'Perro' otherwise - together with the
    score at that index, which is the maximum of the two, and the pair
    itself. *)
Theorem predict_image_label_confidence
    (model : Model) (image : Image) (p0 p1 : Q) (rest : list (list Q)) (w : World) :
  model_predict model (preprocess_image image) = Ok ([p0; p1] :: rest) ->
  exists (i : nat) (name : string) (confidence : Q),
    (predict_image (PyModel model) (PyImage image) w).2
      = Ok (name, confidence, [p0; p1]) /\
    np_argmax [p0; p1] = Ok i /\
    class_names !! i = Some name /\
    [p0; p1] !! i = Some confidence /\
    (confidence == Qmax p0 p1)%Q /\
    (i = 0%nat /\ name = "Gato 🐱" /\ (p1 <= p0)%Q \/
     i = 1%nat /\ name = "Perro 🐶" /\ (p0 < p1)%Q).
Proof.
  intros Hp.
  unfold predict_image, call_preprocess_image, call_model_predict, list_item,
    as_image, as_model, bind, log_call, lift, ret.
  cbn. rewrite Hp. cbn.
  destruct (Qle_bool p1 p0) eqn:E; cbn.
  - apply Qle_bool_iff in E.
    exists 0%nat, "Gato 🐱", p0. repeat split; try reflexivity.
    + destruct (Q.max_spec p0 p1) as [[Hlt Hm] | [Hle Hm]]; rewrite Hm; lra.
    + left. repeat split. exact E.
  - assert (p0 < p1)%Q as Hlt.
    { apply Qnot_le_lt. intros Hle. apply Qle_bool_iff in Hle. congruence. }
    exists 1%nat, "Perro 🐶", p1. repeat split; try reflexivity.
    + destruct (Q.max_spec p0 p1) as [[_ Hm] | [Hle Hm]]; rewrite Hm; lra.
    + right. repeat split. exact Hlt.
Qed.

Lemma not_Qle_bool (x c : Q) : negb (Qle_bool x c) = true <-> (c < x)%Q.
Proof.
  rewrite negb_true_iff. split.
  - intros E. apply Qnot_le_lt. intros Hle. apply Qle_bool_iff in Hle. congruence.
  - intros Hlt. destruct (Qle_bool x c) eqn:E; [| reflexivity].
    apply Qle_bool_iff in E. lra.
Qed.

(** [float32_0_8] and [float32_0_6] are float32 values of the binade
    [1/2, 1) - an integer of 24 bits over 2^24 - and lie within half the
    spacing 2^-24 of 0.8 and 0.6: no float32 is nearer. *)
Lemma float32_literals_nearest :
  (float32_0_8 == 13421773 # 2 ^ 24)%Q /\
  (float32_0_6 == 10066330 # 2 ^ 24)%Q /\
  (2 ^ 23 <= 13421773 < 2 ^ 24)%Z /\ (2 ^ 23 <= 10066330 < 2 ^ 24)%Z /\
  (Qabs (float32_0_8 - (8 # 10)) <= 1 # 2 ^ 25)%Q /\
  (Qabs (float32_0_6 - (6 # 10)) <= 1 # 2 ^ 25)%Q.
Proof.
  repeat split; try reflexivity; try discriminate;
    apply Qabs_Qle_condition; split; vm_compute; discriminate.
Qed.

(** C8, as the code has it: for every confidence value exactly one of the
    three messages is the interpretation, with the literals rounded to the
    float32 of the confidence they are compared with: 'Alta confianza'
    exactly when confidence > float32(0.8), 'Confianza media' exactly when
    float32(0.6) < confidence <= float32(0.8), and 'Baja confianza' exactly
    when confidence <= float32(0.6). *)
Theorem interpretation_total_exclusive (confidence : Q) (predicted_class : string) :
  let shown := interpretation confidence predicted_class in
  (shown = alta_confianza predicted_class <-> (float32_0_8 < confidence)%Q) /\
  (shown = confianza_media predicted_class <->
     (float32_0_6 < confidence)%Q /\ (confidence <= float32_0_8)%Q) /\
  (shown = baja_confianza <-> (confidence <= float32_0_6)%Q) /\
  (shown = alta_confianza predicted_class /\
     shown <> confianza_media predicted_class /\ shown <> baja_confianza \/
   shown <> alta_confianza predicted_class /\
     shown = confianza_media predicted_class /\ shown <> baja_confianza \/
   shown <> alta_confianza predicted_class /\
     shown <> confianza_media predicted_class /\ shown = baja_confianza).
Proof.
  assert (float32_0_6 < float32_0_8)%Q as Horder by reflexivity.
  cbv zeta. unfold interpretation.
  destruct (negb (Qle_bool confidence float32_0_8)) eqn:E8.
  - apply not_Qle_bool in E8.
    repeat split; try (intros; discriminate); try tauto; try lra.
    left. repeat split; discriminate.
  - apply negb_false_iff, Qle_bool_iff in E8.
    destruct (negb (Qle_bool confidence float32_0_6)) eqn:E6.
    + apply not_Qle_bool in E6.
      repeat split; try (intros; discriminate); try tauto; try lra.
      right; left. repeat split; discriminate.
    + apply negb_false_iff, Qle_bool_iff in E6.
      repeat split; try (intros; discriminate); try tauto; try lra.
      right; right. repeat split; discriminate.
Qed.
End PredictFacts.

(** ** The model loader *)

Section LoadFacts.
Context {f32 : Float32} {pil : PIL} {keras : Keras}.

Lemma tf_load_unfold (path : string) (w : World) :
  tf_keras_models_load_model path w =
    (w, match disk w !! path with
        | Some data => match keras_load_model data with
                       | Ok m => Ok (PyModel m)
                       | Raise e => Raise e
                       end
        | None => Raise FileNotFoundError
        end).
Proof.
  unfold tf_keras_models_load_model, bind, read_file, lift, ret.
  destruct (disk w !! path) as [data |]; [| reflexivity].
  destruct (keras_load_model data); reflexivity.
Qed.

(** With the file on disk the body goes straight to the Keras loader. *)
Lemma load_model_body_present (w : World) :
  is_Some (disk w !! model_path) ->
  load_model_body w = tf_keras_models_load_model model_path w.
Proof.
  intros Hp. unfold load_model_body, bind, os_path_exists, when.
  rewrite (bool_decide_eq_true_2 _ Hp). reflexivity.
Qed.

Lemma load_model_body_absent (w : World) (resp : Response) :
  disk w !! model_path = None ->
  network w model_url = Ok resp ->
  load_model_body w = tf_keras_models_load_model model_path (downloaded resp w).
Proof.
  intros Hd Hn. unfold load_model_body, bind, os_path_exists, when.
  rewrite bool_decide_eq_false_2 by (rewrite Hd; intros [? ?]; discriminate).
  cbn. rewrite Hn. reflexivity.
Qed.

Lemma load_model_body_unreachable (w : World) (e : exn) :
  disk w !! model_path = None ->
  network w model_url = Raise e ->
  load_model_body w = (requested w, Raise e).
Proof.
  intros Hd Hn. unfold load_model_body, bind, os_path_exists, when.
  rewrite bool_decide_eq_false_2 by (rewrite Hd; intros [? ?]; discriminate).
  cbn. rewrite Hn. reflexivity.
Qed.

Lemma load_model_cached (w : World) (v : pyval) :
  resource_cache w = Some v -> load_model w = (w, Ok v).
Proof. intros Hc. unfold load_model, st_cache_resource. now rewrite Hc. Qed.

(** What the body returns: an exception, or the model the Keras loader
    made of the file that is then on disk. *)
Lemma load_model_body_returns (w : World) :
  (exists e, (load_model_body w).2 = Raise e) \/
  (exists data m,
      disk (load_model_body w).1 !! model_path = Some data /\
      keras_load_model data = Ok m /\
      (load_model_body w).2 = Ok (PyModel m)).
Proof.
  destruct (disk w !! model_path) as [data |] eqn:Hd.
  - rewrite load_model_body_present by (rewrite Hd; eauto).
    rewrite tf_load_unfold, Hd. cbn.
    destruct (keras_load_model data) as [m | e] eqn:Hk; eauto 6.
  - destruct (network w model_url) as [resp | e] eqn:Hn.
    + rewrite (load_model_body_absent w resp Hd Hn), tf_load_unfold. cbn.
      rewrite lookup_insert_eq.
      destruct (keras_load_model (content resp)) as [m | e] eqn:Hk; eauto 6.
    + rewrite (load_model_body_unreachable w e Hd Hn). eauto.
Qed.

Lemma load_model_returns (w : World) :
  cache_ok w ->
  cache_ok (load_model w).1 /\
  ((exists e, (load_model w).2 = Raise e) \/
   (exists v, from_keras v /\ (load_model w).2 = Ok v /\
              resource_cache (load_model w).1 = Some v)).
Proof.
  intros Hok. unfold load_model, st_cache_resource.
  destruct (resource_cache w) as [v |] eqn:Hc.
  - split; [exact Hok |]. right. exists v. cbn. auto.
  - pose proof (load_model_body_returns w) as Hb.
    destruct (load_model_body w) as [w' [v | e]] eqn:Hl; cbn [fst snd] in *.
    + destruct Hb as [[e He] | (data & m & _ & Hk & Hv)]; [discriminate |].
      injection Hv as ->.
      assert (from_keras (PyModel m)) by (exists data, m; auto).
      split; [| right; eauto].
      intros v Hv. cbn in Hv. injection Hv as <-. assumption.
    + split; [| left; eauto].
      intros v Hv.
      assert (resource_cache w' = None) as Hn; [| rewrite Hn in Hv; discriminate].
      destruct (disk w !! model_path) as [data |] eqn:Hd.
      * rewrite load_model_body_present, tf_load_unfold in Hl by (rewrite Hd; eauto).
        injection Hl as <- _. exact Hc.
      * destruct (network w model_url) as [resp | e'] eqn:Hnet.
        -- rewrite (load_model_body_absent w resp Hd Hnet), tf_load_unfold in Hl.
           injection Hl as <- _. exact Hc.
        -- rewrite (load_model_body_unreachable w e' Hd Hnet) in Hl.
           injection Hl as <- _. exact Hc.
Qed.

Lemma load_model_no_refetch_aux (w : World) :
  is_Some (disk w !! model_path) ->
  (requests_made (load_model_body w).1 = requests_made w /\
   disk (load_model_body w).1 = disk w) /\
  (requests_made (load_model w).1 = requests_made w /\
   disk (load_model w).1 = disk w).
Proof.
  intros Hp.
  assert ((load_model_body w).1 = w) as Hb
    by (rewrite (load_model_body_present w Hp), tf_load_unfold; reflexivity).
  split; [now rewrite Hb |].
  unfold load_model, st_cache_resource.
  destruct (resource_cache w); [auto |].
  destruct (load_model_body w) as [w' [v | e]]; cbn in *; subst w'; auto.
Qed.

(** C4: when the file my_cat_dog_model.keras is already on disk, a call of
    [load_model] - of the function itself and of its cached wrapper - makes
    no network request and leaves the disk, the cached file included, as
    it was. *)
Theorem load_model_no_refetch (w : World) :
  is_Some (disk w !! model_path) ->
  (requests_made (load_model_body w).1 = requests_made w /\
   disk (load_model_body w).1 = disk w) /\
  (requests_made (load_model w).1 = requests_made w /\
   disk (load_model w).1 = disk w).
Proof.
  intros [data Hd].
  assert (load_model_body w = tf_keras_models_load_model model_path w) as Hskip.
  { unfold load_model_body, bind, os_path_exists, when.
    rewrite bool_decide_eq_true_2 by (rewrite Hd; eauto). reflexivity. }
  assert ((load_model_body w).1 = w) as Hb by (rewrite Hskip, tf_load_unfold; reflexivity).
  split; [now rewrite Hb |].
  unfold load_model, st_cache_resource.
  destruct (resource_cache w) as [v |]; [split; reflexivity |].
  destruct (load_model_body w) as [w' [v | e]]; cbn in Hb; subst w'; cbn; auto.
Qed.

(** C9: with no model file on disk, whatever the server answers - any
    status code, any body - is written to my_cat_dog_model.keras; and once
    a file is there, whatever its content, no call of [load_model] makes a
    request or rewrites it. *)
Theorem load_model_writes_any_response (w : World) (resp : Response) :
  disk w !! model_path = None ->
  network w model_url = Ok resp ->
  (disk (load_model_body w).1 !! model_path = Some (content resp) /\
   requests_made (load_model_body w).1 = requests_made w ++ [model_url]) /\
  (resource_cache w = None ->
   disk (load_model w).1 !! model_path = Some (content resp) /\
   requests_made (load_model w).1 = requests_made w ++ [model_url]) /\
  (forall (w' : World) (data : list Byte.byte),
     disk w' !! model_path = Some data ->
     requests_made (load_model w').1 = requests_made w' /\
     requests_made (load_model_body w').1 = requests_made w' /\
     disk (load_model w').1 !! model_path = Some data).
Proof.
  intros Hd Hn.
  assert ((load_model_body w).1 = downloaded resp w) as Hb
    by (rewrite (load_model_body_absent w resp Hd Hn), tf_load_unfold; reflexivity).
  assert (disk (downloaded resp w) !! model_path = Some (content resp)) as Hw
    by (cbn; apply lookup_insert_eq).
  split; [rewrite Hb; auto |]. split.
  - intros Hc. unfold load_model, st_cache_resource. rewrite Hc.
    destruct (load_model_body w) as [w' [v | e]]; cbn in *; subst w'; auto.
  - intros w' data Hp.
    assert (is_Some (disk w' !! model_path)) as Hs by (rewrite Hp; eauto).
    destruct (load_model_no_refetch_aux w' Hs) as [[Hr1 _] [Hr2 Hd2]].
    rewrite Hd2. auto.
Qed.
End LoadFacts.

(** ** What the page keeps and what it leaves alone *)

Section Frame.
Context {f32 : Float32} {pil : PIL} {keras : Keras}.
Variable I : World -> Prop.
Hypothesis I_ui : forall e w,
  e <> load_failed -> I w -> I (set_ui (ui w ++ [e]) w).
Hypothesis I_calls : forall c w, I w -> I (set_calls (calls w ++ [c]) w).
Hypothesis I_session : forall key v w,
  session_flag key -> I w -> I (set_session_state (<[key := v]> (session_state w)) w).

Lemma inv_pure {A} (m : M A) : (forall w, (m w).1 = w) -> inv I m.
Proof. intros Hm w Hw. now rewrite Hm. Qed.

Lemma inv_ret {A} (a : A) : inv I (ret a).
Proof. now apply inv_pure. Qed.

Lemma inv_raise {A} (e : exn) : inv I (raise (A := A) e).
Proof. now apply inv_pure. Qed.

Lemma inv_lift {A} (r : result A) : inv I (lift r).
Proof. now apply inv_pure. Qed.

Lemma inv_bind {A B} (m : M A) (k : A -> M B) :
  inv I m -> (forall a, inv I (k a)) -> inv I (bind m k).
Proof.
  intros Hm Hk w Hw. unfold bind. specialize (Hm w Hw).
  destruct (m w) as [w' [a | e]]; cbn in *; [now apply Hk | assumption].
Qed.

Lemma inv_when (b : bool) (m : M unit) : inv I m -> inv I (when b m).
Proof. destruct b; [trivial | intros _; apply inv_ret]. Qed.

Lemma inv_st_emit (e : Element) : e <> load_failed -> inv I (st_emit e).
Proof. intros He w Hw. now apply I_ui. Qed.

Lemma inv_log_call (c : Call) : inv I (log_call c).
Proof. intros w Hw. now apply I_calls. Qed.

Lemma inv_session_set (key : string) (v : pyval) :
  session_flag key -> inv I (session_set key v).
Proof. intros Hk w Hw. now apply I_session. Qed.

Lemma inv_read_file (path : string) : inv I (read_file path).
Proof. now apply inv_pure. Qed.

Lemma inv_session_missing (key : string) : inv I (session_missing key).
Proof. now apply inv_pure. Qed.

Lemma inv_session_get (key : string) : inv I (session_get key).
Proof. now apply inv_pure. Qed.

Lemma inv_session_attr (key : string) : inv I (session_attr key).
Proof. now apply inv_pure. Qed.

Lemma interpretation_not_load_failed (c : Q) (cls : string) :
  interpretation c cls <> load_failed.
Proof.
  unfold interpretation.
  destruct (negb (Qle_bool c float32_0_8)); [discriminate |].
  destruct (negb (Qle_bool c float32_0_6)); discriminate.
Qed.

Lemma flag_image : session_flag "image_to_predict".
Proof. now left. Qed.

Lemma flag_file_id : session_flag "last_uploaded_file_id".
Proof. now right. Qed.

(** One step of a proof that a piece of the page keeps [I]: split a
    sequence, case on what a branch looks at, or close a primitive. *)
Ltac inv_step :=
  first
    [ apply inv_ret | apply inv_raise | apply inv_lift
    | apply inv_log_call | apply inv_read_file
    | apply inv_session_missing | apply inv_session_get | apply inv_session_attr
    | apply inv_session_set; first [apply flag_image | apply flag_file_id]
    | apply inv_st_emit; first [discriminate | apply interpretation_not_load_failed]
    | apply inv_when
    | apply inv_bind; [| intros ?; cbv beta]
    | match goal with
      | |- inv _ (match ?x with _ => _ end) => destruct x
      end ].

Ltac inv_auto := repeat inv_step.

Lemma inv_as_image (v : pyval) : inv I (as_image v).
Proof. unfold as_image. inv_auto. Qed.

Lemma inv_as_model (v : pyval) : inv I (as_model v).
Proof. unfold as_model. inv_auto. Qed.

Lemma inv_widgets (inp : Inputs) (label : string) :
  inv I (st_checkbox inp label) /\ inv I (st_button inp label) /\
  inv I (st_file_uploader inp label).
Proof. unfold st_checkbox, st_button, st_file_uploader. repeat split; inv_auto. Qed.

Lemma inv_st_image_file (path caption : string) : inv I (st_image_file path caption).
Proof. unfold st_image_file. inv_auto. Qed.

Lemma inv_session_init (key : string) : session_flag key -> inv I (session_init key).
Proof.
  intros Hk. unfold session_init. inv_auto. now apply inv_session_set.
Qed.

Lemma inv_upload_handler (uploaded_file : option UploadedFile) :
  inv I (upload_handler uploaded_file).
Proof. unfold upload_handler, Image_open_upload. inv_auto. Qed.

Lemma inv_set_sample_image (uploaded_file : option UploadedFile) (path : string) :
  inv I (set_sample_image uploaded_file path).
Proof. unfold set_sample_image, Image_open_path. inv_auto. Qed.

Lemma inv_sample_column (inp : Inputs) (key caption label : string) :
  inv I (sample_column inp key caption label).
Proof.
  unfold sample_column, dict_item.
  repeat first [ apply inv_st_image_file | apply inv_set_sample_image
               | apply (inv_widgets inp) | inv_step ].
Qed.

Lemma inv_call_preprocess_image (image : pyval) : inv I (call_preprocess_image image).
Proof. unfold call_preprocess_image. repeat first [apply inv_as_image | inv_step]. Qed.

Lemma inv_predict_image (model image : pyval) : inv I (predict_image model image).
Proof.
  unfold predict_image, call_model_predict, list_item.
  repeat first [apply inv_call_preprocess_image | apply inv_as_model | inv_step].
Qed.

Lemma inv_classify (model image : pyval) : inv I (classify model image).
Proof.
  unfold classify, st_progress, data_frame.
  repeat first [apply inv_predict_image | inv_step].
Qed.

Lemma inv_main_body (inp : Inputs) (model : pyval) : inv I (main_body inp model).
Proof.
  unfold main_body.
  repeat first
    [ apply inv_classify | apply inv_call_preprocess_image
    | apply inv_sample_column | apply inv_upload_handler
    | apply inv_session_init; first [apply flag_image | apply flag_file_id]
    | apply inv_as_image | apply inv_as_model
    | apply (inv_widgets inp) | inv_step ].
Qed.
End Frame.

Section FrameLoad.
Context {f32 : Float32} {pil : PIL} {keras : Keras}.
Variable I : World -> Prop.
Hypothesis I_ui : forall e w,
  e <> load_failed -> I w -> I (set_ui (ui w ++ [e]) w).
Hypothesis I_calls : forall c w, I w -> I (set_calls (calls w ++ [c]) w).
Hypothesis I_session : forall key v w,
  session_flag key -> I w -> I (set_session_state (<[key := v]> (session_state w)) w).
Hypothesis I_disk : forall d w, I w -> I (set_disk d w).
Hypothesis I_requests : forall r w, I w -> I (set_requests_made r w).
Hypothesis I_cache : forall c w, I w -> I (set_resource_cache c w).

Lemma I_requested (w : World) : I w -> I (requested w).
Proof. intros Hw. apply I_requests, I_ui; [discriminate | exact Hw]. Qed.

Lemma inv_load_model_body : inv I load_model_body.
Proof.
  intros w Hw.
  destruct (disk w !! model_path) as [data |] eqn:Hd.
  - rewrite load_model_body_present, tf_load_unfold by (rewrite Hd; eauto). exact Hw.
  - destruct (network w model_url) as [resp | e] eqn:Hn.
    + rewrite (load_model_body_absent w resp Hd Hn), tf_load_unfold.
      apply I_disk, I_requested, Hw.
    + rewrite (load_model_body_unreachable w e Hd Hn). apply I_requested, Hw.
Qed.

Lemma inv_load_model : inv I load_model.
Proof.
  intros w Hw. unfold load_model, st_cache_resource.
  destruct (resource_cache w); [exact Hw |].
  pose proof (inv_load_model_body w Hw) as Hb.
  destruct (load_model_body w) as [w' [v | e]]; cbn [fst] in *.
  - now apply I_cache.
  - exact Hb.
Qed.

Lemma inv_main (inp : Inputs) :
  (forall w, I w -> I (set_ui (ui w ++ [load_failed]) w)) ->
  inv I (main inp).
Proof.
  intros Herr. unfold main.
  apply inv_bind; [apply inv_st_emit; [assumption | discriminate] | intros _].
  apply inv_bind; [apply inv_st_emit; [assumption | discriminate] | intros _].
  apply inv_bind; [apply inv_load_model | intros model].
  destruct (is_none model).
  - intros w Hw. now apply Herr.
  - now apply inv_main_body.
Qed.

Lemma inv_script (inp : Inputs) :
  (forall w, I w -> I (set_ui (ui w ++ [load_failed]) w)) ->
  inv I (script inp).
Proof.
  intros Herr. unfold script.
  apply inv_bind; [apply inv_load_model | intros _]. now apply inv_main.
Qed.
End FrameLoad.

(** ** Failures of the loader *)

Section LoaderFailure.
Context {f32 : Float32} {pil : PIL} {keras : Keras}.

Lemma st_emit_unfold (e : Element) (w : World) :
  st_emit e w = (set_ui (ui w ++ [e]) w, Ok tt).
Proof. reflexivity. Qed.

(** C3, on the code: with nothing in Streamlit's cache and a file on disk
    that the Keras loader rejects, the exception leaves [load_model] as it
    is - no [None] is returned - and ends the run of the script at line 33;
    a call of [main] ends with the same exception. *)
Theorem load_model_failure_propagates
    (inp : Inputs) (w : World) (data : list Byte.byte) (e : exn) :
  resource_cache w = None ->
  disk w !! model_path = Some data ->
  keras_load_model data = Raise e ->
  load_model w = (w, Raise e) /\
  script inp w = (w, Raise e) /\
  (main inp w).2 = Raise e.
Proof.
  intros Hc Hd Hk.
  assert (forall w', resource_cache w' = None -> disk w' = disk w ->
                     load_model w' = (w', Raise e)) as Hl.
  { intros w' Hc' Hd'. unfold load_model, st_cache_resource. rewrite Hc'.
    rewrite load_model_body_present, tf_load_unfold by (rewrite Hd', Hd; eauto).
    now rewrite Hd', Hd, Hk. }
  split; [now apply Hl |]. split.
  - unfold script, bind. now rewrite Hl.
  - unfold main, bind. rewrite !st_emit_unfold. now rewrite Hl.
Qed.

(** C10: from a state whose resource cache holds nothing but what the
    Keras loader once returned (an empty cache to begin with), [load_model]
    either raises or returns a value of [tf.keras.models.load_model], never
    [None]; the cache stays that way over a run of [main] and of the whole
    script, and neither of them ever renders the message of the branch
    under [model is None]. *)
Theorem load_model_never_none (inp : Inputs) (w : World) :
  cache_ok w ->
  ((exists e, (load_model w).2 = Raise e) \/
   (exists v, from_keras v /\ (load_model w).2 = Ok v)) /\
  (load_model w).2 <> Ok PyNone /\
  (load_model_body w).2 <> Ok PyNone /\
  cache_ok (load_model w).1 /\
  cache_ok (main inp w).1 /\
  cache_ok (script inp w).1 /\
  (load_failed ∉ ui w -> load_failed ∉ ui (main inp w).1) /\
  (load_failed ∉ ui w -> load_failed ∉ ui (script inp w).1).
Proof.
  assert (forall w, cache_ok w ->
            cache_ok (load_model w).1 /\
            (load_failed ∉ ui w -> load_failed ∉ ui (load_model w).1) /\
            (load_model w).2 <> Ok PyNone) as Hload.
  { intros w0 Hok. destruct (load_model_returns w0 Hok) as [Hok' Hr].
    split; [exact Hok' |]. split.
    - apply (inv_load_model (fun w => load_failed ∉ ui w)); try (intros; assumption).
      intros e w1 He Hw1. cbn. rewrite not_elem_of_app, list_elem_of_singleton.
      split; [assumption | congruence].
    - destruct Hr as [[e He] | (v & (data & m & _ & ->) & Hv & _)];
        rewrite ?He, ?Hv; discriminate. }
  assert (forall w, cache_ok w ->
            cache_ok (main inp w).1 /\
            (load_failed ∉ ui w -> load_failed ∉ ui (main inp w).1)) as Hmain.
  { intros w0 Hok. unfold main, bind. rewrite !st_emit_unfold.
    set (w1 := set_ui _ (set_ui _ w0)).
    assert (cache_ok w1) as Hok1 by exact Hok.
    assert (load_failed ∉ ui w0 -> load_failed ∉ ui w1) as Hui1.
    { intros Hn. cbn. rewrite !not_elem_of_app, !list_elem_of_singleton.
      repeat split; [assumption | discriminate | discriminate]. }
    destruct (Hload w1 Hok1) as (Hok2 & Hui2 & Hnone).
    destruct (load_model w1) as [w2 [model | e]]; cbn [fst snd] in *; [| tauto].
    destruct model as [| s | im | m]; [congruence | | |]; cbn [is_none]; split;
      try (intros Hn; apply (inv_main_body (fun w => load_failed ∉ ui w));
           [ intros e w3 He Hw3; cbn;
             rewrite not_elem_of_app, list_elem_of_singleton; split;
             [assumption | congruence]
           | intros; assumption | intros; assumption | tauto ]);
      apply (inv_main_body cache_ok); try (intros; assumption). }
  intros Hok.
  destruct (load_model_returns w Hok) as [Hok' Hr].
  destruct (Hload w Hok) as (_ & Hui & Hnone).
  split; [destruct Hr as [? | (v & ? & ? & _)]; eauto |].
  split; [exact Hnone |].
  split.
  { destruct (load_model_body_returns w) as [[e He] | (data & m & _ & _ & Hv)];
      rewrite ?He, ?Hv; discriminate. }
  split; [exact Hok' |].
  destruct (Hmain w Hok) as [Hm1 Hm2].
  split; [exact Hm1 |].
  assert (cache_ok (script inp w).1 /\
          (load_failed ∉ ui w -> load_failed ∉ ui (script inp w).1)) as [Hs1 Hs2].
  { unfold script, bind.
    destruct (load_model w) as [w2 [model | e]]; cbn [fst snd] in *.
    - destruct (Hmain w2 Hok') as [? ?]. split; [assumption | auto].
    - split; [assumption | auto]. }
  auto.
Qed.

End LoaderFailure.

(** ** The upload handler *)

Section UploadFacts.
Context {pil : PIL} {keras : Keras}.

Lemma upload_handler_same_id (f : UploadedFile) (w : World) :
  session_state w !! "last_uploaded_file_id" = Some (PyStr (file_id f)) ->
  upload_handler (Some f) w = (w, Ok tt).
Proof.
  intros Hid. unfold upload_handler, bind, session_get. rewrite Hid. cbn.
  now rewrite String.eqb_refl.
Qed.

(** C7: the upload handler does nothing at all - both session flags keep
    their values - when the uploaded file's id is the stored
    last_uploaded_file_id; and whenever the handler changes the session
    state, a file was uploaded whose id is not the stored one. *)
Theorem upload_handler_skips_same_file (upload : option UploadedFile) (w : World) :
  (forall f, upload = Some f ->
     session_state w !! "last_uploaded_file_id" = Some (PyStr (file_id f)) ->
     upload_handler upload w = (w, Ok tt)) /\
  (session_state (upload_handler upload w).1 <> session_state w ->
     exists f, upload = Some f /\
       session_state w !! "last_uploaded_file_id" <> Some (PyStr (file_id f))).
Proof.
  split.
  - intros f -> Hid. now apply upload_handler_same_id.
  - destruct upload as [f |].
    + intros Hne. exists f. split; [reflexivity |]. intros Hid. apply Hne.
      now rewrite upload_handler_same_id.
    + intros Hne. now destruct Hne.
Qed.
End UploadFacts.

(** ** What the page reads *)

Section Blind.
Context {f32 : Float32} {pil : PIL} {keras : Keras}.

Ltac same_tac :=
  match goal with
  | H : same_but_other_keys _ _ |- _ =>
      let Hdisk := fresh "Hdisk" in
      let Hnet := fresh "Hnet" in
      let Hreq := fresh "Hreq" in
      let Hcache := fresh "Hcache" in
      let Hui := fresh "Hui" in
      let Hcalls := fresh "Hcalls" in
      let Hsess := fresh "Hsess" in
      destruct H as (Hdisk & Hnet & Hreq & Hcache & Hui & Hcalls & Hsess);
      cbn; unfold same_but_other_keys; cbn;
      rewrite ?Hdisk, ?Hnet, ?Hreq, ?Hcache, ?Hui, ?Hcalls;
      repeat split; auto
  end.

Lemma blind_pure {A} (r : result A) : blind (fun w => (w, r)).
Proof. intros w1 w2 Hw. split; [reflexivity | exact Hw]. Qed.

Lemma blind_ret {A} (a : A) : blind (ret a).
Proof. apply blind_pure. Qed.

Lemma blind_raise {A} (e : exn) : blind (raise (A := A) e).
Proof. apply blind_pure. Qed.

Lemma blind_lift {A} (r : result A) : blind (lift r).
Proof. apply blind_pure. Qed.

Lemma blind_bind {A B} (m : M A) (k : A -> M B) :
  blind m -> (forall a, blind (k a)) -> blind (bind m k).
Proof.
  intros Hm Hk w1 w2 Hw. unfold bind. destruct (Hm w1 w2 Hw) as [Hr Hw'].
  destruct (m w1) as [w1' r1], (m w2) as [w2' r2]; cbn in *. subst r2.
  destruct r1 as [a | e]; [now apply Hk | now split].
Qed.

Lemma blind_when (b : bool) (m : M unit) : blind m -> blind (when b m).
Proof. destruct b; [trivial | intros _; apply blind_ret]. Qed.

Lemma blind_st_emit (e : Element) : blind (st_emit e).
Proof. intros w1 w2 Hw. same_tac. Qed.

Lemma blind_log_call (c : Call) : blind (log_call c).
Proof. intros w1 w2 Hw. same_tac. Qed.

Lemma blind_os_path_exists (path : string) : blind (os_path_exists path).
Proof. intros w1 w2 Hw. same_tac. Qed.

Lemma blind_requests_get (url : string) : blind (requests_get url).
Proof. intros w1 w2 Hw. same_tac. Qed.

Lemma blind_write_file (path : string) (data : list Byte.byte) :
  blind (write_file path data).
Proof. intros w1 w2 Hw. same_tac. Qed.

Lemma blind_read_file (path : string) : blind (read_file path).
Proof. intros w1 w2 Hw. same_tac. Qed.

Lemma blind_session_missing (key : string) :
  session_flag key -> blind (session_missing key).
Proof. intros Hk w1 w2 Hw. same_tac. now rewrite (Hsess key Hk). Qed.

Lemma blind_session_get (key : string) :
  session_flag key -> blind (session_get key).
Proof. intros Hk w1 w2 Hw. same_tac. now rewrite (Hsess key Hk). Qed.

Lemma blind_session_attr (key : string) :
  session_flag key -> blind (session_attr key).
Proof. intros Hk w1 w2 Hw. same_tac. now rewrite (Hsess key Hk). Qed.

Lemma blind_session_set (key : string) (v : pyval) : blind (session_set key v).
Proof.
  intros w1 w2 Hw. same_tac. intros key' Hk'.
  rewrite !lookup_insert. case_decide; auto.
Qed.

Lemma blind_cache_resource (f : M pyval) : blind f -> blind (st_cache_resource f).
Proof.
  intros Hf w1 w2 Hw. unfold st_cache_resource.
  assert (resource_cache w1 = resource_cache w2) as Hc by apply Hw.
  rewrite <- Hc. destruct (resource_cache w1) as [v |]; [now split |].
  destruct (Hf w1 w2 Hw) as [Hr Hw'].
  destruct (f w1) as [w1' r1], (f w2) as [w2' r2]; cbn in *. subst r2.
  destruct r1 as [v | e]; [| now split].
  split; [reflexivity |]. same_tac.
Qed.

Ltac blind_step :=
  first
    [ apply blind_ret | apply blind_raise | apply blind_lift
    | apply blind_st_emit | apply blind_log_call
    | apply blind_os_path_exists | apply blind_requests_get
    | apply blind_write_file | apply blind_read_file
    | apply blind_session_set
    | apply blind_session_missing; first [apply flag_image | apply flag_file_id]
    | apply blind_session_get; first [apply flag_image | apply flag_file_id]
    | apply blind_session_attr; first [apply flag_image | apply flag_file_id]
    | apply blind_cache_resource
    | apply blind_when
    | apply blind_bind; [| intros ?; cbv beta]
    | match goal with
      | |- blind (match ?x with _ => _ end) => destruct x
      end ].

Lemma blind_load_model : blind load_model.
Proof.
  unfold load_model, load_model_body, tf_keras_models_load_model.
  repeat blind_step.
Qed.

Lemma blind_predict_image (model image : pyval) : blind (predict_image model image).
Proof.
  unfold predict_image, call_preprocess_image, call_model_predict, list_item,
    as_image, as_model.
  repeat blind_step.
Qed.

Lemma blind_sample_column (inp : Inputs) (key caption label : string) :
  blind (sample_column inp key caption label).
Proof.
  unfold sample_column, dict_item, st_image_file, st_button, set_sample_image,
    Image_open_path.
  repeat blind_step.
Qed.

Lemma blind_main_body (inp : Inputs) (model : pyval) : blind (main_body inp model).
Proof.
  unfold main_body, classify, st_progress, data_frame, upload_handler,
    Image_open_upload, session_init, st_checkbox, st_file_uploader, st_button,
    call_preprocess_image, as_image, as_model.
  repeat first
    [ apply blind_predict_image | apply blind_sample_column | blind_step ].
Qed.

Lemma blind_main (inp : Inputs) : blind (main inp).
Proof.
  unfold main.
  repeat first [ apply blind_load_model | apply blind_main_body | blind_step ].
Qed.

Lemma blind_script (inp : Inputs) : blind (script inp).
Proof.
  unfold script.
  repeat first [ apply blind_load_model | apply blind_main | blind_step ].
Qed.
End Blind.

(** ** The state the page keeps *)

Section SessionFacts.
Context {f32 : Float32} {pil : PIL} {keras : Keras}.

Lemma lookup_other_key (key key' : string) (v : pyval) (s : gmap string pyval) :
  session_flag key -> ~ session_flag key' -> <[key := v]> s !! key' = s !! key'.
Proof. intros Hk Hk'. apply lookup_insert_ne. intros ->. now apply Hk'. Qed.

Lemma main_other_keys (inp : Inputs) (w : World) (key : string) :
  ~ session_flag key ->
  session_state (main inp w).1 !! key = session_state w !! key.
Proof.
  intros Hk.
  apply (inv_main (fun w' => session_state w' !! key = session_state w !! key));
    try (intros; assumption); try reflexivity.
  intros key0 v w' Hk0 Hw'. cbn. now rewrite lookup_other_key.
Qed.

Lemma main_cached (inp : Inputs) (w : World) (v : pyval) :
  resource_cache w = Some v ->
  resource_cache (main inp w).1 = Some v /\
  disk (main inp w).1 = disk w /\
  requests_made (main inp w).1 = requests_made w.
Proof.
  intros Hc. unfold main, bind. rewrite !st_emit_unfold.
  rewrite (load_model_cached _ v) by exact Hc.
  destruct (is_none v); [cbn; auto |].
  apply (inv_main_body
           (fun w' => resource_cache w' = Some v /\ disk w' = disk w /\
                      requests_made w' = requests_made w));
    try (intros; assumption).
  cbn. auto.
Qed.

(** C5, as the code has it: of the session state [main] touches the two
    flags only - every other key is left as it was and plays no part in
    what [main] returns, renders or stores; next to the flags [main] uses
    the resource cache of [load_model], and once that cache is filled
    [main] leaves the cache, the disk and the network alone. *)
Theorem main_session_flags_only (inp : Inputs) (w : World) :
  (forall key, ~ session_flag key ->
     session_state (main inp w).1 !! key = session_state w !! key) /\
  (forall w2, same_but_other_keys w w2 ->
     (main inp w).2 = (main inp w2).2 /\
     same_but_other_keys (main inp w).1 (main inp w2).1) /\
  (forall v, resource_cache w = Some v ->
     resource_cache (main inp w).1 = Some v /\
     disk (main inp w).1 = disk w /\
     requests_made (main inp w).1 = requests_made w).
Proof.
  split; [intros key; apply main_other_keys |].
  split; [intros w2; apply blind_main | apply main_cached].
Qed.
End SessionFacts.

(** ** A re-run with the same upload *)

Section SameUpload.
Context {f32 : Float32} {pil : PIL} {keras : Keras}.
Variables (inp : Inputs) (f : UploadedFile) (s0 : gmap string pyval).
Hypothesis Hup : uploaded_file inp = Some f.
Hypothesis Hid : s0 !! "last_uploaded_file_id" = Some (PyStr (file_id f)).
Hypothesis Him : is_Some (s0 !! "image_to_predict").
Hypothesis Hbtn : forall label,
  label <> "🚀 Clasificar Imagen" -> button inp label = false.

Lemma kept_ui (e : Element) (w : World) :
  e <> load_failed -> session_is s0 w -> session_is s0 (set_ui (ui w ++ [e]) w).
Proof. intros _ Hw. exact Hw. Qed.

Lemma kept_calls (c : Call) (w : World) :
  session_is s0 w -> session_is s0 (set_calls (calls w ++ [c]) w).
Proof. intros Hw. exact Hw. Qed.

Lemma kept_session_init (key : string) :
  is_Some (s0 !! key) -> inv (session_is s0) (session_init key).
Proof.
  intros [v Hv] w Hw. unfold session_init, bind, session_missing, when.
  rewrite Hw, Hv. rewrite bool_decide_eq_false_2 by discriminate. exact Hw.
Qed.

Lemma kept_upload_handler : inv (session_is s0) (upload_handler (Some f)).
Proof.
  intros w Hw. rewrite upload_handler_same_id; [exact Hw |]. now rewrite Hw.
Qed.

Lemma kept_sample_column (key caption label : string) :
  label <> "🚀 Clasificar Imagen" ->
  inv (session_is s0) (sample_column inp key caption label).
Proof.
  intros Hl w Hw.
  unfold sample_column, dict_item, st_image_file, st_button, bind, lift, read_file,
    st_emit, ret, when.
  rewrite (Hbtn label Hl).
  destruct (sample_images !! key) as [path |]; cbn; [| exact Hw].
  destruct (disk w !! path); cbn; exact Hw.
Qed.

(** The bound value of a widget is the input it reads. *)
Lemma inv_bind_widget {A B} (I : World -> Prop) (e : Element) (a : A) (k : A -> M B) :
  inv I (st_emit e) -> inv I (k a) -> inv I (bind (st_emit e >> ret a) k).
Proof.
  intros He Hk w Hw. unfold bind at 1 2. specialize (He w Hw).
  destruct (st_emit e w) as [w' [[] | x]] eqn:E; cbn in *.
  - now apply Hk.
  - unfold st_emit in E. discriminate E.
Qed.

Lemma kept_main_body (model : pyval) : inv (session_is s0) (main_body inp model).
Proof.
  pose proof kept_ui as Kui. pose proof kept_calls as Kcalls.
  unfold main_body, st_file_uploader. rewrite Hup.
  repeat first
    [ apply kept_upload_handler
    | apply kept_sample_column; discriminate
    | apply kept_session_init; first [exact Him | rewrite Hid; eauto]
    | apply (inv_classify (session_is s0) Kui Kcalls)
    | apply (inv_call_preprocess_image (session_is s0) Kcalls)
    | apply (inv_as_image (session_is s0)) | apply (inv_as_model (session_is s0))
    | apply (inv_widgets (session_is s0) Kui inp)
    | apply (inv_session_attr (session_is s0))
    | apply (inv_st_emit (session_is s0) Kui); discriminate
    | apply inv_when | apply inv_lift | apply inv_ret
    | match goal with
      | |- inv _ (bind (bind (st_emit _) (fun _ => ret _)) _) => apply inv_bind_widget
      end
    | apply inv_bind; [| intros ?; cbv beta]
    | match goal with
      | |- inv _ (match ?x with _ => _ end) => destruct x
      end ].
Qed.

(** X16: a re-run of [main] with the uploaded file already taken in, and
    no sample button pressed, leaves the whole session state - both flags -
    as it was. *)
Lemma main_same_upload (w : World) :
  session_state w = s0 -> session_state (main inp w).1 = session_state w.
Proof.
  intros Hw. rewrite Hw. revert w Hw. change (inv (session_is s0) (main inp)).
  unfold main.
  apply inv_bind; [apply (inv_st_emit (session_is s0) kept_ui); discriminate | intros _].
  apply inv_bind; [apply (inv_st_emit (session_is s0) kept_ui); discriminate | intros _].
  apply inv_bind.
  - apply (inv_load_model (session_is s0) kept_ui); intros; assumption.
  - intros model. destruct (is_none model).
    + intros w Hw. exact Hw.
    + apply kept_main_body.
Qed.
End SameUpload.

(** ** What a classification renders *)

Section ClassifyFacts.
Context {f32 : Float32} {pil : PIL} {keras : Keras}.

Lemma Qabs_cases (x : Q) :
  (0 <= x /\ Qabs x == x)%Q \/ (x <= 0 /\ Qabs x == - x)%Q.
Proof.
  destruct (Qlt_le_dec x 0) as [Hn | Hp].
  - right. split; [lra |]. apply Qabs_neg. lra.
  - left. split; [exact Hp |]. now apply Qabs_pos.
Qed.

(** The values a progress bar accepts: from -1e-9 up to 1 / (1 - 1e-9). *)
Lemma check_float_between_iff (v : Q) :
  check_float_between v = true <->
  (- isclose_tol <= v)%Q /\ (v * (1 - isclose_tol) <= 1)%Q.
Proof.
  unfold check_float_between, math_isclose. cbv zeta.
  rewrite !orb_true_iff, andb_true_iff, !Qle_bool_iff.
  destruct (Qabs_cases (0 - v)) as [[? E0] | [? E0]];
  destruct (Qabs_cases (1 - v)) as [[? E1] | [? E1]];
  destruct (Qabs_cases (isclose_tol * 0)) as [[? Ea] | [? Ea]];
  destruct (Qabs_cases (isclose_tol * v)) as [[? Eb] | [? Eb]];
  destruct (Qabs_cases (isclose_tol * 1)) as [[? Ec] | [? Ec]];
  rewrite E0, E1, Ea, Eb, Ec; clear E0 E1 Ea Eb Ec;
  unfold isclose_tol in *; try lra;
  (split; [intros H'; split; intuition lra | intros [? ?]]);
  destruct (Qlt_le_dec v 0); destruct (Qlt_le_dec 1 v); intuition lra.
Qed.

Lemma check_float_between_unit (v : Q) :
  (0 <= v <= 1)%Q -> check_float_between v = true.
Proof.
  intros [H0 H1]. unfold check_float_between.
  apply Qle_bool_iff in H0. apply Qle_bool_iff in H1. now rewrite H0, H1.
Qed.

(** X5: when the model answers with two probabilities, the classification
    runs to its end and the last element on the page is the interpretation
    of the confidence that [predict_image] returned. *)
Lemma classify_renders_interpretation
    (model : Model) (image : Image) (p0 p1 : Q) (rest : list (list Q)) (w : World) :
  model_predict model (preprocess_image image) = Ok ([p0; p1] :: rest) ->
  (0 <= p0 <= 1)%Q -> (0 <= p1 <= 1)%Q ->
  exists (name : string) (confidence : Q),
    (predict_image (PyModel model) (PyImage image) w).2
      = Ok (name, confidence, [p0; p1]) /\
    (classify (PyModel model) (PyImage image) w).2 = Ok tt /\
    last (ui (classify (PyModel model) (PyImage image) w).1)
      = Some (interpretation confidence name).
Proof.
  intros Hp H0 H1.
  unfold classify, predict_image, call_preprocess_image, call_model_predict, list_item,
    as_image, as_model, st_progress, data_frame, bind, log_call, lift, ret, st_emit.
  cbn -[check_float_between]. rewrite Hp. cbn -[check_float_between].
  destruct (Qle_bool p1 p0); cbn -[check_float_between].
  - exists "Gato 🐱", p0. rewrite (check_float_between_unit p0 H0).
    cbn. repeat split. now rewrite last_snoc.
  - exists "Perro 🐶", p1. rewrite (check_float_between_unit p1 H1).
    cbn. repeat split. now rewrite last_snoc.
Qed.
End ClassifyFacts.

(** ** The properties on the small runtime *)

(** C5, as the specification words it, fails: [main] reads the resource
    cache (offline and without a model file it raises, with a cached model it
    renders the page) and fills it (with the model file in place and an empty
    cache, the cache holds the model afterwards). *)
Lemma main_uses_resource_cache :
  (Toy.run_main Toy.no_clicks Toy.offline).2 = Raise ConnectionError /\
  (Toy.run_main Toy.no_clicks
     (set_resource_cache (Some Toy.the_model) Toy.offline)).2 = Ok tt /\
  resource_cache Toy.installed = None /\
  resource_cache (Toy.run_main Toy.no_clicks Toy.installed).1
    = Some Toy.the_model /\
  ~ cache_free (Toy.run_main Toy.no_clicks).
Proof.
  assert (resource_cache (Toy.run_main Toy.no_clicks Toy.installed).1
          = Some Toy.the_model) as Hfill by (vm_compute; reflexivity).
  repeat split; try (vm_compute; reflexivity); try exact Hfill.
  intros Hfree. destruct (Hfree Toy.installed None) as [Hsame _].
  pose proof (eq_trans (eq_sym Hfill) Hsame) as Habs. discriminate Habs.
Qed.

(** C8, as the specification words it, fails at the float32 next to 0.8 and
    at the one next to 0.6: each is larger than the decimal number, and the
    page shows 'Confianza media' for the first and 'Baja confianza' for the
    second. *)
Lemma interpretation_at_float32_literals :
  ((8 # 10 < float32_0_8)%Q /\
   interpretation (pil := Toy.pil_bitmaps) float32_0_8 "Perro 🐶"
     = confianza_media "Perro 🐶") /\
  ((6 # 10 < float32_0_6)%Q /\
   interpretation (pil := Toy.pil_bitmaps) float32_0_6 "Perro 🐶" = baja_confianza) /\
  ~ (forall (confidence : Q) (predicted_class : string),
       interpretation (pil := Toy.pil_bitmaps) confidence predicted_class
         = alta_confianza predicted_class <-> (8 # 10 < confidence)%Q).
Proof.
  assert (8 # 10 < float32_0_8)%Q as H8 by reflexivity.
  split; [split; [exact H8 | reflexivity] |].
  split; [split; reflexivity |].
  intros Hclaim. destruct (Hclaim float32_0_8 "Perro 🐶") as [_ Halta].
  specialize (Halta H8). vm_compute in Halta. discriminate Halta.
Qed.

Lemma predict_image_label_confidence_witness :
  model_predict (Keras := Toy.keras_const) Toy.mostly_dog (Toy.run_preprocess_image Toy.a_cat)
    = Ok [[51 # 255; 204 # 255]] /\
  exists (i : nat) (name : string) (confidence : Q),
    (Toy.run_predict_image Toy.the_model (Toy.image_value Toy.a_cat) Toy.installed).2
      = Ok (name, confidence, [51 # 255; 204 # 255]) /\
    np_argmax [51 # 255; 204 # 255] = Ok i /\
    class_names !! i = Some name /\
    [51 # 255; 204 # 255] !! i = Some confidence /\
    (confidence == Qmax (51 # 255) (204 # 255))%Q /\
    (i = 0%nat /\ name = "Gato 🐱" /\ (204 # 255 <= 51 # 255)%Q \/
     i = 1%nat /\ name = "Perro 🐶" /\ (51 # 255 < 204 # 255)%Q).
Proof.
  split; [reflexivity |].
  apply (predict_image_label_confidence
           (f32 := Toy.float32_exact) (pil := Toy.pil_bitmaps) (keras := Toy.keras_const)
           Toy.mostly_dog Toy.a_cat (51 # 255) (204 # 255) [] Toy.installed).
  reflexivity.
Defined.

Lemma preprocess_image_tensor_witness :
  nd_dtype (Toy.run_preprocess_image Toy.a_cat) = float32 /\
  nd_shape (Toy.run_preprocess_image Toy.a_cat) = [1%N; 128%N; 128%N; 3%N] /\
  length (nd_data (Toy.run_preprocess_image Toy.a_cat)) = N.to_nat (1 * 128 * 128 * 3) /\
  Forall (fun v => (0 <= v <= 1)%Q) (nd_data (Toy.run_preprocess_image Toy.a_cat)).
Proof.
  exact (preprocess_image_tensor (f32 := Toy.float32_exact) (pil := Toy.pil_bitmaps) Toy.a_cat).
Defined.

Lemma load_model_failure_propagates_witness :
  (resource_cache Toy.broken = None /\
   disk Toy.broken !! model_path = Some Toy.not_found_page /\
   keras_load_model (Keras := Toy.keras_const) Toy.not_found_page
     = Raise (ModelLoadError "not a saved model")) /\
  Toy.run_load_model Toy.broken = (Toy.broken, Raise (ModelLoadError "not a saved model")) /\
  Toy.run_script Toy.no_clicks Toy.broken
    = (Toy.broken, Raise (ModelLoadError "not a saved model")) /\
  (Toy.run_main Toy.no_clicks Toy.broken).2 = Raise (ModelLoadError "not a saved model").
Proof.
  split; [repeat split; vm_compute; reflexivity |].
  apply (load_model_failure_propagates
           (f32 := Toy.float32_exact) (pil := Toy.pil_bitmaps) (keras := Toy.keras_const)
           Toy.no_clicks Toy.broken Toy.not_found_page (ModelLoadError "not a saved model"));
    vm_compute; reflexivity.
Defined.

Lemma load_model_no_refetch_witness :
  is_Some (disk Toy.installed !! model_path) /\
  (requests_made (Toy.run_load_model_body Toy.installed).1 = requests_made Toy.installed /\
   disk (Toy.run_load_model_body Toy.installed).1 = disk Toy.installed) /\
  (requests_made (Toy.run_load_model Toy.installed).1 = requests_made Toy.installed /\
   disk (Toy.run_load_model Toy.installed).1 = disk Toy.installed).
Proof.
  assert (is_Some (disk Toy.installed !! model_path)) as Hp
    by (exists Toy.saved_model; vm_compute; reflexivity).
  split; [exact Hp |].
  exact (load_model_no_refetch (pil := Toy.pil_bitmaps) (keras := Toy.keras_const)
           Toy.installed Hp).
Defined.

Lemma main_session_flags_only_witness :
  ~ session_flag "theme" /\
  session_state (Toy.run_main Toy.no_clicks Toy.seen_upload).1 !! "theme"
    = session_state Toy.seen_upload !! "theme" /\
  (resource_cache (set_resource_cache (Some Toy.the_model) Toy.offline) = Some Toy.the_model /\
   disk (Toy.run_main Toy.no_clicks (set_resource_cache (Some Toy.the_model) Toy.offline)).1
     = disk Toy.offline).
Proof.
  assert (~ session_flag "theme") as Hk by (intros [Hf | Hf]; discriminate Hf).
  split; [exact Hk |]. split.
  - exact (proj1 (main_session_flags_only
                    (f32 := Toy.float32_exact) (pil := Toy.pil_bitmaps)
                    (keras := Toy.keras_const) Toy.no_clicks Toy.seen_upload)
             "theme" Hk).
  - split; [reflexivity |].
    exact (proj1 (proj2 (proj2 (proj2 (main_session_flags_only
                    (f32 := Toy.float32_exact) (pil := Toy.pil_bitmaps)
                    (keras := Toy.keras_const) Toy.no_clicks
                    (set_resource_cache (Some Toy.the_model) Toy.offline)))
             Toy.the_model eq_refl))).
Defined.


Lemma upload_handler_skips_same_file_witness :
  session_state Toy.seen_upload !! "last_uploaded_file_id"
    = Some (PyStr (file_id Toy.an_upload)) /\
  Toy.run_upload_handler (Some Toy.an_upload) Toy.seen_upload = (Toy.seen_upload, Ok tt).
Proof.
  assert (session_state Toy.seen_upload !! "last_uploaded_file_id"
          = Some (PyStr (file_id Toy.an_upload))) as Hid by (vm_compute; reflexivity).
  split; [exact Hid |].
  exact (proj1 (upload_handler_skips_same_file
                  (pil := Toy.pil_bitmaps) (keras := Toy.keras_const)
                  (Some Toy.an_upload) Toy.seen_upload)
           Toy.an_upload eq_refl Hid).
Defined.

Lemma interpretation_total_exclusive_witness :
  interpretation (pil := Toy.pil_bitmaps) (3 # 4) "Perro 🐶"
    = confianza_media "Perro 🐶".
Proof.
  apply (proj1 (proj2 (interpretation_total_exclusive
                         (pil := Toy.pil_bitmaps) (3 # 4) "Perro 🐶"))).
  split; vm_compute; [reflexivity | discriminate].
Defined.

Lemma load_model_writes_any_response_witness :
  (disk Toy.answers_404 !! model_path = None /\
   network Toy.answers_404 model_url = Ok (mk_Response 404 Toy.not_found_page)) /\
  disk (Toy.run_load_model Toy.answers_404).1 !! model_path = Some Toy.not_found_page /\
  requests_made (Toy.run_load_model Toy.answers_404).1
    = requests_made Toy.answers_404 ++ [model_url].
Proof.
  assert (disk Toy.answers_404 !! model_path = None) as Hd by (vm_compute; reflexivity).
  assert (network Toy.answers_404 model_url = Ok (mk_Response 404 Toy.not_found_page))
    as Hn by (vm_compute; reflexivity).
  split; [split; assumption |].
  exact (proj1 (proj2 (load_model_writes_any_response
                         (pil := Toy.pil_bitmaps) (keras := Toy.keras_const)
                         Toy.answers_404 (mk_Response 404 Toy.not_found_page) Hd Hn))
           eq_refl).
Defined.

Lemma load_model_never_none_witness :
  cache_ok Toy.answers_404 /\
  (Toy.run_load_model Toy.answers_404).2 <> Ok PyNone /\
  (load_failed ∉ ui Toy.answers_404 ->
   load_failed ∉ ui (Toy.run_script Toy.no_clicks Toy.answers_404).1).
Proof.
  assert (cache_ok Toy.answers_404) as Hok by (intros v Hv; discriminate Hv).
  split; [exact Hok |].
  pose proof (load_model_never_none
                (f32 := Toy.float32_exact) (pil := Toy.pil_bitmaps)
                (keras := Toy.keras_const) Toy.no_clicks Toy.answers_404 Hok) as Hall.
  split; [apply Hall | apply Hall].
Defined.

(** * Further properties of the script *)

(** ** The argmax *)

Lemma argmax_from_spec (l : list Q) :
  forall (best : Q) (besti i : nat), (besti < i)%nat ->
    (argmax_from best besti i l = besti /\ Forall (fun x => (x <= best)%Q) l) \/
    ((i <= argmax_from best besti i l)%nat /\
     exists v, l !! (argmax_from best besti i l - i)%nat = Some v /\
       (best < v)%Q /\
       Forall (fun x => (x <= v)%Q) l /\
       Forall (fun x => (x < v)%Q) (take (argmax_from best besti i l - i) l)).
Proof.
  induction l as [| x l IH]; intros best besti i Hlt; cbn [argmax_from].
  - left. split; [reflexivity | constructor].
  - destruct (Qle_bool x best) eqn:E.
    + apply Qle_bool_iff in E.
      destruct (IH best besti (S i) ltac:(lia)) as [[Hj Hall] | (Hj & v & Hv & Hb & Hall & Hpre)].
      * left. split; [exact Hj | constructor; assumption].
      * right. split; [lia |]. exists v.
        replace (argmax_from best besti (S i) l - i)%nat
          with (S (argmax_from best besti (S i) l - S i)) by lia.
        cbn [lookup take]. repeat split; try assumption.
        -- constructor; [lra | assumption].
        -- constructor; [lra | assumption].
    + assert (best < x)%Q as Hbx.
      { apply Qnot_le_lt. intros Hle. apply Qle_bool_iff in Hle. congruence. }
      destruct (IH x i (S i) ltac:(lia)) as [[Hj Hall] | (Hj & v & Hv & Hb & Hall & Hpre)].
      * right. rewrite Hj. split; [lia |]. exists x.
        replace (i - i)%nat with 0%nat by lia. cbn.
        repeat split; try assumption; constructor; [lra | assumption].
      * right. split; [lia |]. exists v.
        replace (argmax_from x i (S i) l - i)%nat
          with (S (argmax_from x i (S i) l - S i)) by lia.
        cbn [lookup take]. repeat split; try assumption.
        -- lra.
        -- constructor; [lra | assumption].
        -- constructor; [lra | assumption].
Qed.

Lemma np_argmax_spec (l : list Q) (j : nat) :
  np_argmax l = Ok j ->
  exists v, l !! j = Some v /\
    Forall (fun x => (x <= v)%Q) l /\
    Forall (fun x => (x < v)%Q) (take j l).
Proof.
  destruct l as [| x l]; [discriminate |]. cbn [np_argmax]. intros [= <-].
  destruct (argmax_from_spec l x 0 1 ltac:(lia)) as [[Hj Hall] | (Hj & v & Hv & Hb & Hall & Hpre)].
  - rewrite Hj. exists x. cbn. repeat split; constructor; [lra | assumption].
  - destruct (argmax_from x 0 1 l) as [| j']; [lia |].
    replace (S j' - 1)%nat with j' in * by lia.
    exists v. cbn [lookup take]. split; [exact Hv |]. split.
    + constructor; [lra | assumption].
    + constructor; [lra | assumption].
Qed.

Section PredictMore.
Context {f32 : Float32} {pil : PIL} {keras : Keras}.


Lemma predict_image_result (model image : pyval) (w : World) :
  (predict_image model image w).2 =
    match image, model with
    | PyImage im, PyModel m =>
        match model_predict m (preprocess_image im) with
        | Ok (row :: _) => label_of_row row
        | Ok [] => Raise IndexError
        | Raise e => Raise e
        end
    | _, _ => Raise AttributeError
    end.
Proof.
  unfold predict_image, call_preprocess_image, call_model_predict, list_item,
    as_image, as_model, label_of_row, bind, log_call, lift, ret, raise.
  destruct image as [| s | im | m']; cbn; try reflexivity.
  destruct model as [| s | im' | m]; cbn; try reflexivity.
  destruct (model_predict m (preprocess_image im)) as [[| row batch] | e]; cbn;
    try reflexivity.
  destruct (np_argmax row) as [j | e]; cbn; [| reflexivity].
  destruct (row !! j); cbn; [| reflexivity].
  destruct (class_names !! j); reflexivity.
Qed.

Lemma label_of_row_ok (row r : list Q) (name : string) (c : Q) :
  label_of_row row = Ok (name, c, r) ->
  r = row /\
  exists j, np_argmax row = Ok j /\ row !! j = Some c /\ class_names !! j = Some name.
Proof.
  unfold label_of_row.
  destruct (np_argmax row) as [j | e]; [| discriminate].
  destruct (row !! j) as [c' |] eqn:Hc; [| discriminate].
  destruct (class_names !! j) as [n |] eqn:Hn; [| discriminate].
  intros [= <- <- <-]. split; [reflexivity |]. exists j. auto.
Qed.

(** X1: whatever the model and the image, when [predict_image] returns a
    name, a confidence and a row, the confidence is the entry of the row at
    an index below 2, the name is the class name at that index, no entry of
    the row is larger than the confidence and every entry before it is
    strictly smaller (ties go to the earlier class). *)
Theorem predict_image_confidence_is_max
    (model image : pyval) (w : World) (name : string) (c : Q) (r : list Q) :
  (predict_image model image w).2 = Ok (name, c, r) ->
  exists j,
    r !! j = Some c /\
    class_names !! j = Some name /\
    (j < 2)%nat /\
    Forall (fun x => (x <= c)%Q) r /\
    Forall (fun x => (x < c)%Q) (take j r).
Proof.
  rewrite predict_image_result.
  destruct image as [| s | im | m']; try discriminate.
  destruct model as [| s | im' | m]; try discriminate.
  destruct (model_predict m (preprocess_image im)) as [[| row batch] | e]; try discriminate.
  intros Hl. apply label_of_row_ok in Hl as (-> & j & Hj & Hc & Hn).
  destruct (np_argmax_spec row j Hj) as (v & Hv & Hall & Hpre).
  rewrite Hc in Hv. injection Hv as <-.
  exists j. repeat split; try assumption.
  apply lookup_lt_Some in Hn. exact Hn.
Qed.

Lemma Qmax_ub (p0 p1 : Q) : (p0 <= Qmax p0 p1)%Q /\ (p1 <= Qmax p0 p1)%Q.
Proof. split; [apply Q.le_max_l | apply Q.le_max_r]. Qed.

Lemma Qmax_cases (p0 p1 : Q) : (Qmax p0 p1 == p0)%Q \/ (Qmax p0 p1 == p1)%Q.
Proof. destruct (Q.max_spec p0 p1) as [[_ E] | [_ E]]; auto. Qed.

(** X2: for a model that answers with more than two scores,
    [predict_image] returns (with the larger of the first two scores as
    confidence) exactly when no later score is larger than both of them, and
    raises IndexError on [class_names] exactly when some later score is. *)
Theorem predict_image_more_classes
    (model : Model) (image : Image) (p0 p1 : Q) (rest : list Q)
    (batch : list (list Q)) (w : World) :
  model_predict model (preprocess_image image) = Ok ((p0 :: p1 :: rest) :: batch) ->
  ((exists name c, (predict_image (PyModel model) (PyImage image) w).2
                   = Ok (name, c, p0 :: p1 :: rest) /\ (c == Qmax p0 p1)%Q)
   <-> Forall (fun x => (x <= Qmax p0 p1)%Q) rest) /\
  ((predict_image (PyModel model) (PyImage image) w).2 = Raise IndexError
   <-> Exists (fun x => (Qmax p0 p1 < x)%Q) rest).
Proof.
  intros Hp. rewrite predict_image_result, Hp.
  set (row := p0 :: p1 :: rest).
  destruct (Qmax_ub p0 p1) as [Hu0 Hu1].
  assert (exists j, np_argmax row = Ok j) as [j Hj] by (cbn; eauto).
  destruct (np_argmax_spec row j Hj) as (v & Hv & Hall & Hpre).
  assert (Forall (fun x => (x <= Qmax p0 p1)%Q) rest \/
          Exists (fun x => (Qmax p0 p1 < x)%Q) rest) as Hdec.
  { clear. induction rest as [| x rest [IH | IH]]; auto.
    destruct (Qlt_le_dec (Qmax p0 p1) x); auto. }
  assert (Forall (fun x => (x <= Qmax p0 p1)%Q) rest ->
          Exists (fun x => (Qmax p0 p1 < x)%Q) rest -> False) as Hexcl.
  { intros Hf He. apply Exists_exists in He as (x & Hx & Hlt).
    rewrite Forall_forall in Hf. specialize (Hf x Hx). lra. }
  unfold label_of_row. rewrite Hj, Hv.
  destruct j as [| [| j]].
  - (* the first score is the largest *)
    cbn in Hv. injection Hv as <-. cbn [class_names lookup].
    assert (Forall (fun x => (x <= Qmax p0 p1)%Q) rest) as Hf.
    { inversion Hall as [| ? ? _ Ht]; subst. inversion Ht as [| ? ? _ Hr]; subst.
      eapply Forall_impl; [exact Hr |]. cbn. intros x Hx. lra. }
    split; split; try (intros; assumption); try discriminate.
    + intros _. exists "Gato 🐱", p0. split; [reflexivity |].
      inversion Hall as [| ? ? _ Ht]; subst. inversion Ht as [| ? ? H1 _]; subst.
      destruct (Qmax_cases p0 p1) as [E | E]; rewrite E; lra.
    + intros He. destruct (Hexcl Hf He).
  - cbn in Hv. injection Hv as <-. cbn [class_names lookup].
    assert (Forall (fun x => (x <= Qmax p0 p1)%Q) rest) as Hf.
    { inversion Hall as [| ? ? _ Ht]; subst. inversion Ht as [| ? ? _ Hr]; subst.
      eapply Forall_impl; [exact Hr |]. cbn. intros x Hx. lra. }
    split; split; try (intros; assumption); try discriminate.
    + intros _. exists "Perro 🐶", p1. split; [reflexivity |].
      inversion Hall as [| ? ? H0 _]; subst.
      destruct (Qmax_cases p0 p1) as [E | E]; rewrite E; lra.
    + intros He. destruct (Hexcl Hf He).
  - (* a later score beats both *)
    cbn in Hv, Hpre. cbn [class_names lookup].
    assert (Exists (fun x => (Qmax p0 p1 < x)%Q) rest) as He.
    { apply Exists_exists. exists v. split; [eapply list_elem_of_lookup_2; exact Hv |].
      inversion Hpre as [| ? ? H0 Ht]; subst. inversion Ht as [| ? ? H1 _]; subst.
      destruct (Qmax_cases p0 p1) as [E | E]; rewrite E; lra. }
    split; split; try (intros; assumption); try reflexivity.
    + intros (name & c & Habs & _). discriminate Habs.
    + intros Hf. destruct (Hexcl Hf He).
Qed.
End PredictMore.

Section ClassifyMore.
Context {f32 : Float32} {pil : PIL} {keras : Keras}.

Lemma classify_result (model image : pyval) (w : World) :
  (classify model image w).2 =
    match (predict_image model image w).2 with
    | Raise e => Raise e
    | Ok (_, c, r) =>
        if check_float_between c
        then if (length class_names =? length r)%nat then Ok tt else Raise ValueError
        else Raise StreamlitAPIException
    end.
Proof.
  rewrite (predict_image_result model image w).
  unfold classify, bind. rewrite st_emit_unfold.
  set (w1 := set_ui _ w).
  pose proof (predict_image_result model image w1) as Hr.
  destruct (predict_image model image w1) as [w2 r]. cbn [snd] in Hr. rewrite <- Hr.
  destruct r as [[[name c] row] | e]; [| reflexivity].
  rewrite !st_emit_unfold. unfold st_progress, data_frame.
  destruct (check_float_between c); cbn; [| reflexivity].
  destruct (length row) as [| [| [| n]]]; reflexivity.
Qed.

(** X4: the classification triggered by the button runs to its end
    exactly when the model answers with a first row of exactly two scores
    whose larger one the progress bar accepts: it is not below -1e-9 and
    not above 1 / (1 - 1e-9). *)
Theorem classify_completes_iff (model : Model) (image : Image) (w : World) :
  (classify (PyModel model) (PyImage image) w).2 = Ok tt <->
  exists (p0 p1 : Q) (batch : list (list Q)),
    model_predict model (preprocess_image image) = Ok ([p0; p1] :: batch) /\
    (- isclose_tol <= Qmax p0 p1)%Q /\
    (Qmax p0 p1 * (1 - isclose_tol) <= 1)%Q.
Proof.
  rewrite classify_result, predict_image_result. split.
  - destruct (model_predict model (preprocess_image image)) as [[| row batch] | e];
      try discriminate.
    destruct (label_of_row row) as [[[name c] r] | e] eqn:Hl; [| discriminate].
    apply label_of_row_ok in Hl as (-> & j & Hj & Hc & Hn).
    destruct (check_float_between c) eqn:Hrange; [| discriminate].
    apply check_float_between_iff in Hrange.
    destruct row as [| p0 [| p1 [| p2 rest]]]; try discriminate.
    intros _. exists p0, p1, batch. split; [reflexivity |].
    destruct (np_argmax_spec _ _ Hj) as (v & Hv & Hall & _).
    rewrite Hc in Hv. injection Hv as <-.
    inversion Hall as [| ? ? H0 Ht]; subst. inversion Ht as [| ? ? H1 _]; subst.
    assert (Qmax p0 p1 == c)%Q as ->; [| exact Hrange].
    destruct (Q.max_spec p0 p1) as [[Ho E] | [Ho E]]; rewrite E;
      destruct j as [| [| j]]; cbn in Hc; try discriminate;
      injection Hc as <-; lra.
  - intros (p0 & p1 & batch & -> & Hrange).
    unfold label_of_row. cbn [np_argmax argmax_from].
    destruct (Qle_bool p1 p0) eqn:E; cbn -[check_float_between].
    + apply Qle_bool_iff in E.
      assert (check_float_between p0 = true) as ->; [| reflexivity].
      apply check_float_between_iff.
      assert (Qmax p0 p1 == p0)%Q as Hm
        by (destruct (Q.max_spec p0 p1) as [[? Hm] | [? Hm]]; rewrite Hm; lra).
      now rewrite <- Hm.
    + assert (p0 < p1)%Q.
      { apply Qnot_le_lt. intros Hle. apply Qle_bool_iff in Hle. congruence. }
      assert (check_float_between p1 = true) as ->; [| reflexivity].
      apply check_float_between_iff.
      assert (Qmax p0 p1 == p1)%Q as Hm
        by (destruct (Q.max_spec p0 p1) as [[? Hm] | [? Hm]]; rewrite Hm; lra).
      now rewrite <- Hm.
Qed.

(** X3: for a model that answers with a single score per image,
    [predict_image] returns 'Gato' with that score, whatever the score is,
    and the classification on the page never completes: it ends in
    ValueError (the data frame) or StreamlitAPIException (the progress
    bar). *)
Theorem predict_image_single_score
    (model : Model) (image : Image) (p : Q) (batch : list (list Q)) (w : World) :
  model_predict model (preprocess_image image) = Ok ([p] :: batch) ->
  (predict_image (PyModel model) (PyImage image) w).2 = Ok ("Gato 🐱", p, [p]) /\
  (exists e, (classify (PyModel model) (PyImage image) w).2 = Raise e /\
             (e = ValueError \/ e = StreamlitAPIException)).
Proof.
  intros Hp. rewrite classify_result, predict_image_result, Hp. split; [reflexivity |].
  cbn -[check_float_between]. destruct (check_float_between p); eauto.
Qed.
End ClassifyMore.

Section LoadMore.
Context {f32 : Float32} {pil : PIL} {keras : Keras}.

Lemma load_model_fills_cache (w : World) (v : pyval) :
  (load_model w).2 = Ok v -> resource_cache (load_model w).1 = Some v.
Proof.
  unfold load_model, st_cache_resource.
  destruct (resource_cache w) as [v0 |] eqn:Hc0.
  - cbn. intros [= <-]. exact Hc0.
  - destruct (load_model_body w) as [w' [v' | e]]; cbn; [| discriminate].
    now intros [= <-].
Qed.

(** X7: when no model file exists and the server answers with a body that
    the Keras loader rejects, the body is on disk after the failed call, and
    every later call of [load_model] that finds this disk (the cache being
    empty, since failures are not cached) fails with the same exception
    without changing anything - the server is not asked again. *)
Theorem load_model_bad_download (w : World) (resp : Response) (e : exn) :
  disk w !! model_path = None ->
  resource_cache w = None ->
  network w model_url = Ok resp ->
  keras_load_model (content resp) = Raise e ->
  load_model w = (downloaded resp w, Raise e) /\
  load_model (downloaded resp w) = (downloaded resp w, Raise e) /\
  (forall w' : World,
     disk w' = disk (downloaded resp w) -> resource_cache w' = None ->
     load_model w' = (w', Raise e)).
Proof.
  intros Hd Hc Hn Hk.
  assert (forall w' : World,
            disk w' = disk (downloaded resp w) -> resource_cache w' = None ->
            load_model w' = (w', Raise e)) as Hagain.
  { intros w' Hd' Hc'. unfold load_model, st_cache_resource. rewrite Hc'.
    assert (disk w' !! model_path = Some (content resp)) as Hfile
      by (rewrite Hd'; cbn; apply lookup_insert_eq).
    rewrite load_model_body_present, tf_load_unfold by (rewrite Hfile; eauto).
    now rewrite Hfile, Hk. }
  split; [| split; [apply Hagain; [reflexivity | exact Hc] | exact Hagain]].
  unfold load_model, st_cache_resource. rewrite Hc.
  rewrite (load_model_body_absent w resp Hd Hn), tf_load_unfold.
  cbn. rewrite lookup_insert_eq. now rewrite Hk.
Qed.


(** X8: with no model file, an empty cache and an unreachable server,
    each call of [load_model] sends one more request and fails; after [n]
    calls [n] requests have been made, the disk is as it was and the cache is
    still empty. *)
Theorem load_model_offline_retries (w : World) (e : exn) (n : nat) :
  disk w !! model_path = None ->
  resource_cache w = None ->
  network w model_url = Raise e ->
  requests_made (after_loads n w) = requests_made w ++ repeat model_url n /\
  disk (after_loads n w) = disk w /\
  resource_cache (after_loads n w) = None /\
  (load_model (after_loads n w)).2 = Raise e.
Proof.
  intros Hd Hc Hn.
  assert (forall w' : World,
            disk w' = disk w -> resource_cache w' = None -> network w' = network w ->
            load_model w' = (requested w', Raise e)) as Hstep.
  { intros w' Hd' Hc' Hn'. unfold load_model, st_cache_resource. rewrite Hc'.
    rewrite (load_model_body_unreachable w' e); [reflexivity | now rewrite Hd' | now rewrite Hn']. }
  assert (requests_made (after_loads n w) = requests_made w ++ repeat model_url n /\
          disk (after_loads n w) = disk w /\
          resource_cache (after_loads n w) = None /\
          network (after_loads n w) = network w) as (Hr & Hd' & Hc' & Hn').
  { induction n as [| n (IHr & IHd & IHc & IHn)].
    - cbn. rewrite app_nil_r. auto.
    - cbn [after_loads]. rewrite (Hstep _ IHd IHc IHn).
      unfold requested, set_requests_made, set_ui.
      cbn [fst requests_made disk resource_cache network].
      rewrite IHr. repeat split; try assumption.
      rewrite <- app_assoc. f_equal. symmetry. apply repeat_cons. }
  repeat split; try assumption. now rewrite (Hstep _ Hd' Hc' Hn').
Qed.
End LoadMore.


Section ScriptMore.
Context {f32 : Float32} {pil : PIL} {keras : Keras}.

(** What a call of [load_model] does to the disk and the network. *)
Lemma load_model_footprint (w : World) :
  (requests_made (load_model w).1 = requests_made w /\
   disk (load_model w).1 = disk w) \/
  (disk w !! model_path = None /\ resource_cache w = None /\
   requests_made (load_model w).1 = requests_made w ++ [model_url] /\
   (disk (load_model w).1 = disk w \/
    exists resp, network w model_url = Ok resp /\
      disk (load_model w).1 = <[model_path := content resp]> (disk w))).
Proof.
  unfold load_model, st_cache_resource.
  destruct (resource_cache w) as [v0 |] eqn:Hc; [left; auto |].
  destruct (disk w !! model_path) as [data |] eqn:Hd.
  - left. rewrite load_model_body_present, tf_load_unfold by (rewrite Hd; eauto).
    destruct (match disk w !! model_path with Some _ => _ | None => _ end); auto.
  - right. split; [reflexivity |]. split; [reflexivity |].
    destruct (network w model_url) as [resp | e] eqn:Hn.
    + rewrite (load_model_body_absent w resp Hd Hn), tf_load_unfold.
      destruct (match disk (downloaded resp w) !! model_path with Some _ => _ | None => _ end);
        cbn; eauto.
    + rewrite (load_model_body_unreachable w e Hd Hn). cbn. auto.
Qed.

Lemma script_after_load (inp : Inputs) (w : World) :
  requests_made (script inp w).1 = requests_made (load_model w).1 /\
  disk (script inp w).1 = disk (load_model w).1.
Proof.
  unfold script, bind.
  pose proof (load_model_fills_cache w) as Hfill.
  destruct (load_model w) as [w1 [v | e]]; cbn [fst snd] in *; [| auto].
  destruct (main_cached inp w1 v (Hfill v eq_refl)) as (_ & Hd & Hr). auto.
Qed.

(** X9: one run of the script sends at most one request, to the model URL,
    and sends it only when the model file is missing and the resource cache
    is empty. *)
Theorem script_at_most_one_request (inp : Inputs) (w : World) :
  (requests_made (script inp w).1 = requests_made w \/
   requests_made (script inp w).1 = requests_made w ++ [model_url]) /\
  (requests_made (script inp w).1 <> requests_made w ->
   disk w !! model_path = None /\ resource_cache w = None).
Proof.
  destruct (script_after_load inp w) as [Hr _]. rewrite Hr.
  destruct (load_model_footprint w) as [[Hsame _] | (Hd & Hc & Hone & _)].
  - split; [left; exact Hsame | intros Hne; now destruct Hne].
  - split; [right; exact Hone | auto].
Qed.

(** X10: one run of the script leaves every file other than
    my_cat_dog_model.keras as it was. *)
Theorem script_writes_model_file_only (inp : Inputs) (w : World) (path : string) :
  path <> model_path ->
  disk (script inp w).1 !! path = disk w !! path.
Proof.
  intros Hp. destruct (script_after_load inp w) as [_ Hd]. rewrite Hd.
  destruct (load_model_footprint w) as [[_ Hsame] | (_ & _ & _ & [Hsame | (resp & _ & Hw)])].
  - now rewrite Hsame.
  - now rewrite Hsame.
  - rewrite Hw. apply lookup_insert_ne. congruence.
Qed.
End ScriptMore.


Section PredictCalls.
Context {f32 : Float32} {pil : PIL} {keras : Keras}.
Variables (inp : Inputs) (log : list Call).

Lemma leads_bind {A B} (I J : World -> Prop) (m : M A) (k : A -> M B) :
  (forall w, I w -> J w) ->
  inv I m -> (forall a, leads I J (k a)) -> leads I J (bind m k).
Proof.
  intros HIJ Hm Hk w Hw. unfold bind. specialize (Hm w Hw).
  destruct (m w) as [w' [a | e]]; cbn in *; [now apply Hk | now apply HIJ].
Qed.

Lemma leads_bind_widget {A B} (I J : World -> Prop) (e : Element) (a : A) (k : A -> M B) :
  inv I (st_emit e) -> leads I J (k a) -> leads I J (bind (st_emit e >> ret a) k).
Proof.
  intros He Hk w Hw. unfold bind at 1 2. specialize (He w Hw).
  destruct (st_emit e w) as [w' [[] | x]] eqn:E; cbn in *.
  - now apply Hk.
  - unfold st_emit in E. discriminate E.
Qed.

Lemma quiet_ui (e : Element) (w : World) :
  e <> load_failed -> predicts_are log w -> predicts_are log (set_ui (ui w ++ [e]) w).
Proof. intros _ Hw. exact Hw. Qed.

Lemma quiet_session (key : string) (v : pyval) (w : World) :
  session_flag key -> predicts_are log w ->
  predicts_are log (set_session_state (<[key := v]> (session_state w)) w).
Proof. intros _ Hw. exact Hw. Qed.

Lemma quiet_preprocess (image : pyval) : inv (predicts_are log) (call_preprocess_image image).
Proof.
  intros w Hw. unfold call_preprocess_image, bind, log_call, as_image.
  assert (predicts_are log (set_calls (calls w ++ [CallPreprocess image]) w)) as Hw'.
  { unfold predicts_are, predict_calls in *. cbn. rewrite List.filter_app. cbn.
    now rewrite app_nil_r. }
  destruct image; exact Hw'.
Qed.

(** The calls a classification adds. *)
Lemma classify_calls (model image : pyval) (w : World) :
  calls (classify model image w).1 = calls w ++ [CallPreprocess image] \/
  exists x, calls (classify model image w).1
            = calls w ++ [CallPreprocess image; CallPredict model x].
Proof.
  unfold classify, bind. rewrite st_emit_unfold.
  set (w1 := set_ui _ w).
  assert (calls (predict_image model image w1).1 = calls w ++ [CallPreprocess image] \/
          exists x, calls (predict_image model image w1).1
                    = calls w ++ [CallPreprocess image; CallPredict model x]) as Hp.
  { destruct image as [| s | im | m']; try (left; reflexivity).
    right. exists (preprocess_image im). now rewrite predict_image_world. }
  destruct (predict_image model image w1) as [w2 r]. cbn [fst] in Hp.
  destruct r as [[[name c] row] | e]; [| exact Hp].
  rewrite !st_emit_unfold. unfold st_progress, data_frame.
  destruct (check_float_between c); cbn; [| exact Hp].
  destruct (length row) as [| [| [| n]]]; cbn; exact Hp.
Qed.

Lemma classify_at_most_one (model image : pyval) :
  leads (predicts_are log) (at_most_one_more log) (classify model image).
Proof.
  intros w Hw. unfold predicts_are, at_most_one_more, predict_calls in *.
  destruct (classify_calls model image w) as [-> | [x ->]]; rewrite List.filter_app; cbn.
  - left. now rewrite app_nil_r.
  - right. exists model, x. now rewrite Hw.
Qed.

Ltac quiet_step :=
  first
    [ apply quiet_preprocess
    | apply (inv_upload_handler (predicts_are log) quiet_session)
    | apply (inv_sample_column (predicts_are log) quiet_ui quiet_session)
    | apply (inv_session_init (predicts_are log) quiet_session);
      first [apply flag_image | apply flag_file_id]
    | apply (inv_as_image (predicts_are log)) | apply (inv_as_model (predicts_are log))
    | apply (inv_widgets (predicts_are log) quiet_ui inp)
    | apply (inv_session_attr (predicts_are log))
    | apply (inv_st_emit (predicts_are log) quiet_ui); discriminate
    | apply inv_lift | apply inv_ret | apply inv_when
    | apply inv_bind; [| intros ?; cbv beta]
    | match goal with
      | |- inv _ (match ?x with _ => _ end) => destruct x
      end ].

Lemma main_body_leads (J : World -> Prop) (model : pyval) :
  (forall w, predicts_are log w -> J w) ->
  (button inp "🚀 Clasificar Imagen" = true ->
   forall image, leads (predicts_are log) J (classify model image)) ->
  leads (predicts_are log) J (main_body inp model).
Proof.
  intros HIJ Hfinal. unfold main_body.
  repeat (apply leads_bind; [exact HIJ | solve [repeat quiet_step] | intros ?; cbv beta]).
  match goal with |- leads _ _ (when ?b _) => destruct b end; cbn [when];
    [| intros w Hw; now apply HIJ].
  unfold st_button. apply leads_bind_widget;
    [apply (inv_st_emit (predicts_are log) quiet_ui); discriminate |].
  destruct (button inp "🚀 Clasificar Imagen"); cbn [when].
  - now apply Hfinal.
  - intros w Hw. now apply HIJ.
Qed.

Lemma main_leads (J : World -> Prop) :
  (forall w, predicts_are log w -> J w) ->
  (button inp "🚀 Clasificar Imagen" = true ->
   forall model image, leads (predicts_are log) J (classify model image)) ->
  leads (predicts_are log) J (main inp).
Proof.
  intros HIJ Hfinal. unfold main.
  apply leads_bind; [exact HIJ | apply (inv_st_emit _ quiet_ui); discriminate | intros _].
  apply leads_bind; [exact HIJ | apply (inv_st_emit _ quiet_ui); discriminate | intros _].
  apply leads_bind; [exact HIJ | apply (inv_load_model _ quiet_ui); intros; assumption |].
  intros model. destruct (is_none model).
  - intros w Hw. now apply HIJ.
  - apply main_body_leads; [exact HIJ | intros Hb image; now apply Hfinal].
Qed.
End PredictCalls.

Section InferenceCalls.
Context {f32 : Float32} {pil : PIL} {keras : Keras}.

(** X11: one run of [main] calls [model.predict] at most once, and not at
    all when the classify button is not pressed. *)
Theorem main_inference_calls (inp : Inputs) (w : World) :
  (predict_calls (main inp w).1 = predict_calls w \/
   exists model x,
     predict_calls (main inp w).1 = predict_calls w ++ [CallPredict model x]) /\
  (button inp "🚀 Clasificar Imagen" = false ->
   predict_calls (main inp w).1 = predict_calls w).
Proof.
  split.
  - apply (main_leads inp (predict_calls w) (at_most_one_more (predict_calls w)));
      [intros w' Hw'; now left | intros _ model image; apply classify_at_most_one
      | reflexivity].
  - intros Hb.
    apply (main_leads inp (predict_calls w) (predicts_are (predict_calls w)));
      [auto | congruence | reflexivity].
Qed.
End InferenceCalls.

Section SessionMore.
Context {f32 : Float32} {pil : PIL} {keras : Keras}.

Lemma str_ne_stored (f : UploadedFile) (s : gmap string pyval) :
  s !! "last_uploaded_file_id" <> Some (PyStr (file_id f)) ->
  str_ne (file_id f) (default PyNone (s !! "last_uploaded_file_id")) = true.
Proof.
  intros Hne. destruct (s !! "last_uploaded_file_id") as [[| t | im | m] |]; try reflexivity.
  cbn. destruct (String.eqb (file_id f) t) eqn:E; [| reflexivity].
  apply String.eqb_eq in E. subst t. now destruct Hne.
Qed.

(** The handler on a file that is not the stored one. *)
Lemma upload_handler_new (f : UploadedFile) (w : World) :
  session_state w !! "last_uploaded_file_id" <> Some (PyStr (file_id f)) ->
  upload_handler (Some f) w =
    match Image_decode (file_data f) with
    | Ok im =>
        (set_session_state
           (<["last_uploaded_file_id" := PyStr (file_id f)]>
              (<["image_to_predict" := PyImage im]> (session_state w))) w, Ok tt)
    | Raise e => (w, Raise e)
    end.
Proof.
  intros Hne. unfold upload_handler, bind, session_get, Image_open_upload, lift.
  rewrite (str_ne_stored f _ Hne). cbn.
  destruct (Image_decode (file_data f)); reflexivity.
Qed.

Lemma stored_dec (f : UploadedFile) (w : World) :
  session_state w !! "last_uploaded_file_id" = Some (PyStr (file_id f)) \/
  session_state w !! "last_uploaded_file_id" <> Some (PyStr (file_id f)).
Proof.
  destruct (session_state w !! "last_uploaded_file_id") as [[| t | im | m] |];
    try (right; discriminate).
  destruct (String.eqb (file_id f) t) eqn:E.
  - apply String.eqb_eq in E. subst. now left.
  - right. intros [= ->]. rewrite String.eqb_refl in E. discriminate.
Qed.

(** X12: running the upload handler a second time on the world it left
    gives the same world and the same outcome; when it raises (the upload is
    not an image) the world is unchanged, neither flag included; when it
    returns, the stored file id is the id of the uploaded file. *)
Theorem upload_handler_idempotent (upload : option UploadedFile) (w : World) :
  upload_handler upload (upload_handler upload w).1 = upload_handler upload w /\
  (forall e, (upload_handler upload w).2 = Raise e -> (upload_handler upload w).1 = w) /\
  (forall f, upload = Some f -> (upload_handler upload w).2 = Ok tt ->
     session_state (upload_handler upload w).1 !! "last_uploaded_file_id"
       = Some (PyStr (file_id f))).
Proof.
  destruct upload as [f |]; [| repeat split; try reflexivity; intros; discriminate].
  destruct (stored_dec f w) as [Hid | Hne].
  - rewrite (upload_handler_same_id f w Hid). cbn [fst snd].
    rewrite (upload_handler_same_id f w Hid).
    repeat split; try (intros; discriminate). now intros f' [= <-] _.
  - rewrite (upload_handler_new f w Hne).
    destruct (Image_decode (file_data f)) as [im | e] eqn:Hdec; cbn [fst snd].
    + rewrite upload_handler_same_id by (cbn; apply lookup_insert_eq).
      repeat split; try (intros; discriminate).
      intros f' [= <-] _. apply lookup_insert_eq.
    + rewrite (upload_handler_new f w Hne), Hdec. repeat split; try (intros; discriminate).
Qed.

(** What [set_sample_image] does. *)
Lemma set_sample_image_unfold (upload : option UploadedFile) (path : string) (w : World) :
  set_sample_image upload path w =
    match (Image_open_path path w).2 with
    | Ok im =>
        (set_session_state
           (<["last_uploaded_file_id" :=
                match upload with Some f => PyStr (file_id f) | None => PyNone end]>
              (<["image_to_predict" := PyImage im]> (session_state w))) w, Ok tt)
    | Raise e => (w, Raise e)
    end.
Proof.
  unfold set_sample_image, Image_open_path, bind, read_file, lift.
  destruct (disk w !! path) as [b |]; cbn; [| reflexivity].
  destruct (Image_decode b); cbn; [| reflexivity].
  destruct upload; reflexivity.
Qed.

(** X13: [set_sample_image] changes nothing when the sample cannot be
    opened; when it returns, image_to_predict is the opened sample and the
    upload handler run next on the same upload leaves it in place. *)
Theorem set_sample_image_then_upload
    (upload : option UploadedFile) (path : string) (w : World) :
  (forall e, (set_sample_image upload path w).2 = Raise e ->
     (set_sample_image upload path w).1 = w) /\
  ((set_sample_image upload path w).2 = Ok tt ->
     (exists im, (Image_open_path path w).2 = Ok im /\
        session_state (set_sample_image upload path w).1 !! "image_to_predict"
          = Some (PyImage im)) /\
     upload_handler upload (set_sample_image upload path w).1
       = ((set_sample_image upload path w).1, Ok tt)).
Proof.
  rewrite set_sample_image_unfold.
  destruct (Image_open_path path w).2 as [im | e]; cbn [fst snd].
  - split; [intros; discriminate |]. intros _. split.
    + exists im. split; [reflexivity |]. cbn.
      rewrite lookup_insert_ne by discriminate. apply lookup_insert_eq.
    + destruct upload as [f |]; [| reflexivity].
      apply upload_handler_same_id. cbn. apply lookup_insert_eq.
  - split; [reflexivity | intros; discriminate].
Qed.

Lemma typed_insert_image (im : Image) (w : World) :
  session_typed w ->
  session_typed (set_session_state (<["image_to_predict" := PyImage im]> (session_state w)) w).
Proof.
  intros [Hi Hf]. split; cbn; intros v.
  - rewrite lookup_insert_eq. intros [= <-]. eauto.
  - rewrite lookup_insert_ne by discriminate. apply Hf.
Qed.

Lemma typed_insert_id (v0 : pyval) (w : World) :
  (v0 = PyNone \/ exists s, v0 = PyStr s) ->
  session_typed w ->
  session_typed (set_session_state (<["last_uploaded_file_id" := v0]> (session_state w)) w).
Proof.
  intros Hv [Hi Hf]. split; cbn; intros v.
  - rewrite lookup_insert_ne by discriminate. apply Hi.
  - rewrite lookup_insert_eq. now intros [= <-].
Qed.

Lemma typed_ui (e : Element) (w : World) :
  e <> load_failed -> session_typed w -> session_typed (set_ui (ui w ++ [e]) w).
Proof. intros _ Hw. exact Hw. Qed.

Lemma typed_calls (c : Call) (w : World) :
  session_typed w -> session_typed (set_calls (calls w ++ [c]) w).
Proof. intros Hw. exact Hw. Qed.

Lemma typed_session_init (key : string) :
  session_flag key -> inv session_typed (session_init key).
Proof.
  intros Hk w Hw. unfold session_init, bind, session_missing, when, session_set.
  destruct (bool_decide (session_state w !! key = None)) eqn:E; cbn; [| exact Hw].
  apply bool_decide_eq_true_1 in E.
  destruct Hw as [Hi Hf]. destruct Hk as [-> | ->]; split; cbn; intros v.
  - rewrite lookup_insert_eq. intros [= <-]. now left.
  - rewrite lookup_insert_ne by discriminate. apply Hf.
  - rewrite lookup_insert_ne by discriminate. apply Hi.
  - rewrite lookup_insert_eq. intros [= <-]. now left.
Qed.

Lemma typed_upload_handler (upload : option UploadedFile) :
  inv session_typed (upload_handler upload).
Proof.
  intros w Hw. destruct upload as [f |]; [| exact Hw].
  destruct (stored_dec f w) as [Hid | Hne].
  - now rewrite (upload_handler_same_id f w Hid).
  - rewrite (upload_handler_new f w Hne).
    destruct (Image_decode (file_data f)); cbn [fst]; [| exact Hw].
    apply (typed_insert_id _ (set_session_state _ w)); [eauto |].
    now apply typed_insert_image.
Qed.

Lemma typed_set_sample_image (upload : option UploadedFile) (path : string) :
  inv session_typed (set_sample_image upload path).
Proof.
  intros w Hw. rewrite set_sample_image_unfold.
  destruct (Image_open_path path w).2; cbn [fst]; [| exact Hw].
  apply (typed_insert_id _ (set_session_state _ w)); [destruct upload; eauto |].
  now apply typed_insert_image.
Qed.

Lemma typed_sample_column (inp : Inputs) (key caption label : string) :
  inv session_typed (sample_column inp key caption label).
Proof.
  unfold sample_column, dict_item.
  repeat first
    [ apply typed_set_sample_image
    | apply (inv_st_image_file session_typed typed_ui)
    | apply (inv_widgets session_typed typed_ui inp)
    | apply inv_lift | apply inv_when
    | apply inv_bind; [| intros ?; cbv beta] ].
Qed.

Lemma typed_main_body (inp : Inputs) (model : pyval) :
  inv session_typed (main_body inp model).
Proof.
  unfold main_body.
  repeat first
    [ apply typed_upload_handler | apply typed_sample_column
    | apply typed_session_init; first [apply flag_image | apply flag_file_id]
    | apply (inv_classify session_typed typed_ui typed_calls)
    | apply (inv_call_preprocess_image session_typed typed_calls)
    | apply (inv_as_image session_typed) | apply (inv_as_model session_typed)
    | apply (inv_widgets session_typed typed_ui inp)
    | apply (inv_session_attr session_typed)
    | apply (inv_st_emit session_typed typed_ui); discriminate
    | apply inv_lift | apply inv_ret | apply inv_when
    | apply inv_bind; [| intros ?; cbv beta]
    | match goal with
      | |- inv _ (match ?x with _ => _ end) => destruct x
      end ].
Qed.

(** X14: over a run of [main] and of the script image_to_predict stays an
    image or [None], and last_uploaded_file_id a string or [None]. *)
Theorem session_stays_typed (inp : Inputs) (w : World) :
  session_typed w ->
  session_typed (main inp w).1 /\ session_typed (script inp w).1.
Proof.
  assert (inv session_typed load_model) as Hload
    by (apply (inv_load_model _ typed_ui); intros; assumption).
  assert (inv session_typed (main inp)) as Hmain.
  { unfold main.
    apply inv_bind; [apply (inv_st_emit _ typed_ui); discriminate | intros _].
    apply inv_bind; [apply (inv_st_emit _ typed_ui); discriminate | intros _].
    apply inv_bind; [exact Hload | intros model].
    destruct (is_none model); [intros w' Hw'; exact Hw' | apply typed_main_body]. }
  intros Hw. split; [now apply Hmain |].
  unfold script. apply inv_bind; [exact Hload | intros _; exact Hmain | exact Hw].
Qed.
End SessionMore.

Section DisplayMore.
Context {f32 : Float32} {pil : PIL}.

End DisplayMore.

(** ** The further properties on the small runtime *)

Lemma predict_image_confidence_is_max_witness :
  (Toy.run_predict_table Toy.cat_first Toy.a_cat).2
    = Ok ("Gato 🐱", 5 # 10, [5 # 10; 5 # 10; 0 # 10]) /\
  exists j : nat,
    [5 # 10; 5 # 10; 0 # 10] !! j = Some (5 # 10) /\
    class_names !! j = Some "Gato 🐱" /\
    (j < 2)%nat /\
    Forall (fun x => (x <= 5 # 10)%Q) [5 # 10; 5 # 10; 0 # 10] /\
    Forall (fun x => (x < 5 # 10)%Q) (take j [5 # 10; 5 # 10; 0 # 10]).
Proof.
  assert ((Toy.run_predict_table Toy.cat_first Toy.a_cat).2
          = Ok ("Gato 🐱", 5 # 10, [5 # 10; 5 # 10; 0 # 10])) as Hr
    by (vm_compute; reflexivity).
  split; [exact Hr |].
  exact (predict_image_confidence_is_max
           (f32 := Toy.float32_exact) (pil := Toy.pil_bitmaps) (keras := Toy.keras_table)
           _ _ Toy.blank_table _ _ _ Hr).
Defined.

Lemma predict_image_more_classes_witness :
  model_predict (Keras := Toy.keras_table) Toy.three_way
    (Toy.run_preprocess_image Toy.a_cat) = Ok [[1 # 10; 2 # 10; 7 # 10]] /\
  Exists (fun x => (Qmax (1 # 10) (2 # 10) < x)%Q) [7 # 10] /\
  (Toy.run_predict_table Toy.three_way Toy.a_cat).2 = Raise IndexError.
Proof.
  assert (Exists (fun x => (Qmax (1 # 10) (2 # 10) < x)%Q) [7 # 10]) as He
    by (apply Exists_cons_hd; vm_compute; reflexivity).
  split; [reflexivity |]. split; [exact He |].
  exact (proj2 (proj2 (predict_image_more_classes
                         (f32 := Toy.float32_exact) (pil := Toy.pil_bitmaps)
                         (keras := Toy.keras_table)
                         Toy.three_way Toy.a_cat (1 # 10) (2 # 10) [7 # 10] []
                         Toy.blank_table eq_refl)) He).
Defined.

Lemma predict_image_single_score_witness :
  model_predict (Keras := Toy.keras_table) Toy.one_score
    (Toy.run_preprocess_image Toy.a_cat) = Ok [[9 # 10]] /\
  (Toy.run_predict_table Toy.one_score Toy.a_cat).2 = Ok ("Gato 🐱", 9 # 10, [9 # 10]).
Proof.
  split; [reflexivity |].
  exact (proj1 (predict_image_single_score
                  (f32 := Toy.float32_exact) (pil := Toy.pil_bitmaps)
                  (keras := Toy.keras_table)
                  Toy.one_score Toy.a_cat (9 # 10) [] Toy.blank_table eq_refl)).
Defined.

Lemma classify_renders_interpretation_witness :
  (model_predict (Keras := Toy.keras_const) Toy.quarter_dog
     (Toy.run_preprocess_image Toy.a_cat) = Ok [[1 # 4; 3 # 4]] /\
   (0 <= 1 # 4 <= 1)%Q /\ (0 <= 3 # 4 <= 1)%Q) /\
  exists (name : string) (confidence : Q),
    (Toy.run_predict_image Toy.the_quarter_model (Toy.image_value Toy.a_cat)
       Toy.installed).2
      = Ok (name, confidence, [1 # 4; 3 # 4]) /\
    (Toy.run_classify Toy.the_quarter_model (Toy.image_value Toy.a_cat)
       Toy.installed).2 = Ok tt /\
    last (ui (Toy.run_classify Toy.the_quarter_model (Toy.image_value Toy.a_cat)
                Toy.installed).1)
      = Some (interpretation confidence name).
Proof.
  assert (0 <= 1 # 4 <= 1)%Q as H0 by (split; unfold Qle; cbn; lia).
  assert (0 <= 3 # 4 <= 1)%Q as H1 by (split; unfold Qle; cbn; lia).
  split; [split; [reflexivity | split; assumption] |].
  exact (classify_renders_interpretation
           (f32 := Toy.float32_exact) (pil := Toy.pil_bitmaps) (keras := Toy.keras_const)
           Toy.quarter_dog Toy.a_cat (1 # 4) (3 # 4) [] Toy.installed
           eq_refl H0 H1).
Defined.

Lemma load_model_bad_download_witness :
  (disk Toy.answers_404 !! model_path = None /\
   resource_cache Toy.answers_404 = None /\
   network Toy.answers_404 model_url = Ok (mk_Response 404 Toy.not_found_page) /\
   keras_load_model (Keras := Toy.keras_const) Toy.not_found_page
     = Raise (ModelLoadError "not a saved model")) /\
  Toy.run_load_model Toy.answers_404
    = (downloaded (mk_Response 404 Toy.not_found_page) Toy.answers_404,
       Raise (ModelLoadError "not a saved model")) /\
  Toy.run_load_model (downloaded (mk_Response 404 Toy.not_found_page) Toy.answers_404)
    = (downloaded (mk_Response 404 Toy.not_found_page) Toy.answers_404,
       Raise (ModelLoadError "not a saved model")).
Proof.
  assert (disk Toy.answers_404 !! model_path = None) as Hd by (vm_compute; reflexivity).
  assert (network Toy.answers_404 model_url = Ok (mk_Response 404 Toy.not_found_page))
    as Hn by (vm_compute; reflexivity).
  split; [repeat split; try assumption; reflexivity |].
  pose proof (load_model_bad_download
                (pil := Toy.pil_bitmaps) (keras := Toy.keras_const)
                Toy.answers_404 (mk_Response 404 Toy.not_found_page)
                (ModelLoadError "not a saved model") Hd eq_refl Hn eq_refl)
    as (Hfirst & Hsecond & _).
  split; [exact Hfirst | exact Hsecond].
Defined.

Lemma load_model_offline_retries_witness :
  (disk Toy.offline !! model_path = None /\
   resource_cache Toy.offline = None /\
   network Toy.offline model_url = Raise ConnectionError) /\
  requests_made (after_loads 3 Toy.offline)
    = requests_made Toy.offline ++ repeat model_url 3 /\
  disk (after_loads 3 Toy.offline) = disk Toy.offline /\
  resource_cache (after_loads 3 Toy.offline) = None /\
  (Toy.run_load_model (after_loads 3 Toy.offline)).2 = Raise ConnectionError.
Proof.
  assert (disk Toy.offline !! model_path = None) as Hd by (vm_compute; reflexivity).
  assert (network Toy.offline model_url = Raise ConnectionError) as Hn
    by (vm_compute; reflexivity).
  split; [repeat split; try assumption; reflexivity |].
  exact (load_model_offline_retries
           (pil := Toy.pil_bitmaps) (keras := Toy.keras_const)
           Toy.offline ConnectionError 3 Hd eq_refl Hn).
Defined.

Lemma script_writes_model_file_only_witness :
  "cat.jpg" <> model_path /\
  disk (Toy.run_script Toy.no_clicks Toy.answers_404).1 !! "cat.jpg"
    = disk Toy.answers_404 !! "cat.jpg".
Proof.
  assert ("cat.jpg" <> model_path) as Hp by discriminate.
  split; [exact Hp |].
  exact (script_writes_model_file_only
           (f32 := Toy.float32_exact) (pil := Toy.pil_bitmaps) (keras := Toy.keras_const)
           Toy.no_clicks Toy.answers_404 "cat.jpg" Hp).
Defined.

Lemma session_stays_typed_witness :
  session_typed Toy.installed /\
  session_typed (Toy.run_main Toy.no_clicks Toy.installed).1 /\
  session_typed (Toy.run_script Toy.no_clicks Toy.installed).1.
Proof.
  assert (session_typed Toy.installed) as Hw
    by (split; intros v Hv; cbn in Hv; rewrite lookup_empty in Hv; discriminate Hv).
  split; [exact Hw |].
  exact (session_stays_typed
           (f32 := Toy.float32_exact) (pil := Toy.pil_bitmaps) (keras := Toy.keras_const)
           Toy.no_clicks Toy.installed Hw).
Defined.

Lemma main_same_upload_witness :
  (uploaded_file Toy.same_upload_again = Some Toy.an_upload /\
   session_state Toy.seen_upload !! "last_uploaded_file_id"
     = Some (PyStr (file_id Toy.an_upload)) /\
   is_Some (session_state Toy.seen_upload !! "image_to_predict")) /\
  session_state (Toy.run_main Toy.same_upload_again Toy.seen_upload).1
    = session_state Toy.seen_upload.
Proof.
  assert (session_state Toy.seen_upload !! "last_uploaded_file_id"
          = Some (PyStr (file_id Toy.an_upload))) as Hid by (vm_compute; reflexivity).
  assert (is_Some (session_state Toy.seen_upload !! "image_to_predict")) as Him
    by (exists (Toy.image_value Toy.a_cat); vm_compute; reflexivity).
  split; [repeat split; assumption |].
  exact (main_same_upload
           (f32 := Toy.float32_exact) (pil := Toy.pil_bitmaps) (keras := Toy.keras_const)
           Toy.same_upload_again Toy.an_upload (session_state Toy.seen_upload)
           eq_refl Hid Him (fun _ _ => eq_refl) Toy.seen_upload eq_refl).
Defined.

